(** * Superstore analytics dashboard (newapp2.py): filter engine,
      aggregation views, page router and notification dispatcher.

    The script is a Streamlit page: it runs top to bottom on every
    interaction, reads the sidebar controls, derives [filtered_df] from the
    cached data frame and renders one of six pages.  A data frame is a
    header plus a list of rows; pandas expressions become list functions,
    the statements of the script become steps of a small state-and-exception
    monad over the script's global variables and the frame objects they
    name. *)

From Stdlib Require Import List String Ascii ZArith QArith Bool Lia.
From Stdlib Require Import Sorted Permutation Mergesort Orders OrderedTypeEx.
From Stdlib Require Import DecimalString.
Import ListNotations.

#[local] Open Scope string_scope.
#[local] Open Scope Z_scope.
#[local] Open Scope list_scope.

(** ** Data model *)

(** One transaction of superstore.csv.  The columns the script reads
    unconditionally are always there (a file without them fails in the
    sidebar, before any page runs); whether the optional columns SalesRep,
    Bonus, Mobile and email exist is recorded in the header of the frame.
    Measures are exact decimals in fixed point: the rounding of float64
    sums and the wrap-around of int64 sums are outside the model, and
    nothing below depends on how a sum associates.  [Order_Date] is the
    parsed timestamp. *)
Record Row := mkRow {
  Region : string;
  Category : string;
  Segment : string;
  Order_Date : Z;
  Sales : Z;
  Profit : Z;
  Discount : Z;
  Quantity : Z;
  Product_Name : string;
  State : string;
  City : string;
  Sub_Category : string;
  SalesRep : string;
  Bonus : Z;
  Mobile : string;
  email : string
}.

Record DataFrame := mkDataFrame {
  columns : list string;
  rows : list Row
}.

(** [name in df.columns] *)
Definition has_column (name : string) (frame : DataFrame) : bool :=
  existsb (String.eqb name) (columns frame).

(** [series.isin(values)], for one cell *)
Definition isin (values : list string) (cell : string) : bool :=
  existsb (String.eqb cell) values.

(** [frame[mask]]: boolean indexing keeps the header and the selected rows *)
Definition getitem_mask (frame : DataFrame) (mask : Row -> bool) : DataFrame :=
  mkDataFrame (columns frame) (filter mask (rows frame)).

(** ** Filter engine (lines 41-47) *)

Definition filter_mask (region category segment : list string)
  (start_date end_date : Z) (r : Row) : bool :=
  isin region (Region r) &&
  isin category (Category r) &&
  isin segment (Segment r) &&
  (start_date <=? Order_Date r) &&
  (Order_Date r <=? end_date).

Definition apply_filters (frame : DataFrame)
  (region category segment : list string) (start_date end_date : Z)
  : DataFrame :=
  getitem_mask frame (filter_mask region category segment start_date end_date).

(** ** Aggregations *)

(** What a float-valued KPI can be: a number or NaN. *)
Inductive pyfloat :=
| NaN
| Fin (q : Q).

(** [series.sum()]: accumulation from zero in row order *)
Definition Series_sum (values : list Z) : Z :=
  fold_left Z.add values 0.

(** numpy's true division as used by the mean kernel: division by a zero
    count gives NaN, no exception *)
Definition np_divide (total : Z) (count : nat) : pyfloat :=
  match count with
  | O => NaN
  | S _ => Fin (Qmake total (Pos.of_nat count))
  end.

(** [series.mean()] *)
Definition Series_mean (values : list Z) : pyfloat :=
  np_divide (Series_sum values) (List.length values).

(** Group keys are sorted by [groupby]; the order is part of the key type. *)
Class KeyOrder (K : Type) := {
  key_compare : K -> K -> comparison;
  key_compare_eq : forall a b, key_compare a b = Eq <-> a = b;
  key_compare_antisym : forall a b, key_compare a b = CompOpp (key_compare b a);
  key_compare_trans : forall a b c,
    key_compare a b = Lt -> key_compare b c = Lt -> key_compare a c = Lt
}.

#[export] Instance string_KeyOrder : KeyOrder string.
Proof.
  refine {| key_compare := String.compare |}.
  - exact String_as_OT.cmp_eq.
  - exact String_as_OT.cmp_antisym.
  - intros a b c Hab Hbc.
    apply String_as_OT.cmp_lt in Hab, Hbc. apply String_as_OT.cmp_lt.
    eapply String_as_OT.lt_trans; eassumption.
Defined.

#[export] Instance Z_KeyOrder : KeyOrder Z.
Proof.
  refine {| key_compare := Z.compare |}.
  - exact Z.compare_eq_iff.
  - intros a b. apply Z.compare_antisym.
  - intros a b c Hab Hbc. rewrite Z.compare_lt_iff in *. lia.
Defined.

(** The group kernel: one pass over the rows, each row's value added to the
    accumulator of its key; accumulators are kept in key order. *)
Fixpoint group_add {K V : Type} `{KeyOrder K} (add : V -> V -> V)
  (k : K) (v : V) (acc : list (K * V)) : list (K * V) :=
  match acc with
  | [] => [(k, v)]
  | (k', s) :: rest =>
      match key_compare k k' with
      | Lt => (k, v) :: acc
      | Eq => (k', add s v) :: rest
      | Gt => (k', s) :: group_add add k v rest
      end
  end.

(** [frame.groupby(key)[cols].agg().reset_index()] *)
Definition groupby_agg {K V : Type} `{KeyOrder K} (add : V -> V -> V)
  (key : Row -> K) (val : Row -> V) (view : list Row) : list (K * V) :=
  fold_left (fun acc r => group_add add (key r) (val r) acc) view [].

(** [frame.groupby(key)[measure].sum()] *)
Definition groupby_sum {K : Type} `{KeyOrder K}
  (key : Row -> K) (measure : Row -> Z) (view : list Row) : list (K * Z) :=
  groupby_agg Z.add key measure view.

(** [frame.groupby(key)[[m1, m2]].sum()] *)
Definition groupby_sum2 {K : Type} `{KeyOrder K}
  (key : Row -> K) (m1 m2 : Row -> Z) (view : list Row) : list (K * (Z * Z)) :=
  groupby_agg (fun a b => (fst a + fst b, snd a + snd b))
    key (fun r => (m1 r, m2 r)) view.

(** Descending order on the aggregated measure, for [nlargest]. *)
Module MeasureDesc <: TotalLeBool.
Definition t := (string * Z)%type.
Definition leb (x y : t) : bool := snd y <=? snd x.
Theorem leb_total : forall x y, leb x y = true \/ leb y x = true.
Proof. intros x y. unfold leb. rewrite !Z.leb_le. lia. Qed.
End MeasureDesc.

Module MeasureSort := Sort MeasureDesc.

(** [series.nlargest(n)]: nothing for [n <= 0], otherwise the first [n]
    entries of the series sorted by descending value. *)
Definition nlargest (n : Z) (series : list (string * Z)) : list (string * Z) :=
  if n <=? 0 then []
  else firstn (Z.to_nat n) (MeasureSort.sort series).

(** [frame.groupby(key)[measure].sum().nlargest(top_n).reset_index()] *)
Definition top_n_by (key : Row -> string) (measure : Row -> Z) (top_n : Z)
  (view : list Row) : list (string * Z) :=
  nlargest top_n (groupby_sum key measure view).

Definition key_eq_dec {K : Type} `{KeyOrder K} (a b : K) : {a = b} + {a <> b}.
Proof.
  destruct (key_compare a b) eqn:E.
  - left. now apply key_compare_eq.
  - right. intros ->. rewrite (proj2 (key_compare_eq b b) eq_refl) in E. discriminate.
  - right. intros ->. rewrite (proj2 (key_compare_eq b b) eq_refl) in E. discriminate.
Defined.

(** The number of distinct groups of a view. *)
Definition distinct_groups {K : Type} `{KeyOrder K} (key : Row -> K)
  (view : list Row) : nat :=
  List.length (nodup key_eq_dec (map key view)).

(** The strict order of the group keys. *)
Definition key_lt {K : Type} `{KeyOrder K} (a b : K) : Prop :=
  key_compare a b = Lt.

(** ** Exceptions, results and the globals of a run *)

(** The exceptions the script can meet; all are subclasses of [Exception]. *)
Inductive exn :=
| KeyError (key : string)
| NameError (name : string)
| AttributeError (type_name attr : string)
| ValueError (msg : string)
| IndexError (msg : string)
| TwilioRestException (msg : string)
| SMTPException (msg : string).

Inductive result (A : Type) :=
| Ok (a : A)
| Raise (e : exn).
Arguments Ok {A} a.
Arguments Raise {A} e.

(** [str(e)], as interpolated in the failure messages *)
Definition exn_str (e : exn) : string :=
  match e with
  | KeyError key => "'" ++ key ++ "'"
  | NameError name => "name '" ++ name ++ "' is not defined"
  | AttributeError type_name attr =>
      "'" ++ type_name ++ "' object has no attribute '" ++ attr ++ "'"
  | ValueError msg => msg
  | IndexError msg => msg
  | TwilioRestException msg => msg
  | SMTPException msg => msg
  end.

(** The object [client.messages.create] returns. *)
Record MessageInstance := mkMessageInstance { sid : string }.

(** The values the variable [message] holds during a run. *)
Inductive pyval :=
| PyStr (s : string)
| PyMessageInstance (m : MessageInstance).

Record SmsRequest := mkSmsRequest {
  sms_body : string;
  sms_from : string;
  sms_to : string
}.

Record EmailRequest := mkEmailRequest {
  mail_server : string;
  mail_port : Z;
  mail_login : string;
  mail_password : string;
  mail_from : string;
  mail_to : string;
  mail_subject : string;
  mail_body : string
}.

(** What lies outside the script: [str.format] applied to the template with
    the keyword argument [bonus], the SMS gateway and the SMTP server.  The
    services answer the n-th request of a run; both raise only subclasses
    of [Exception]. *)
Record World := mkWorld {
  str_format : string -> Z -> result string;
  messages_create : nat -> SmsRequest -> result MessageInstance;
  smtp_session : nat -> EmailRequest -> result unit
}.

Inductive metric_text :=
| fmt_SAR (amount : Z)
| fmt_percent (x : pyfloat).

Inductive chart_data :=
| bar_data (table : list (string * Z))
| line_data (table : list (Z * (Z * Z)))
| frame_data (view : list Row).

(** The display calls of a run, in order. *)
Inductive st_call :=
| st_title (text : string)
| st_markdown (text : string)
| st_subheader (text : string)
| st_metric (label : string) (value : metric_text)
| st_plotly_chart (kind title : string) (data : chart_data)
| st_warning (text : string)
| st_error (text : string)
| st_success (text : string).

(** The state of a run.  Data frames are objects: [g_heap] gives the frame
    at each address, addresses from [g_next] on are free, and the variables
    [df], [filtered_df] and [sales_rep_df] hold addresses, so that two
    variables can name one object and an assignment into an object shows
    through every variable that names it.  The other fields are the global
    variables that outlive the statement that binds them ([g_x] holds the
    variable [x]; [None] is an unbound name), the display and the two
    outboxes. *)
Record Globals := mkGlobals {
  g_heap : nat -> DataFrame;
  g_next : nat;
  g_df : nat;
  g_filtered_df : option nat;
  g_sales_rep_df : option nat;
  g_message : option pyval;
  g_Mobile : option string;
  g_email : option string;
  g_ui : list st_call;
  g_sms_out : list SmsRequest;
  g_mail_out : list EmailRequest
}.

(** Line 21: [df] names the frame [load_data] returned, the only object
    there is when the sidebar starts. *)
Definition init_state (data : DataFrame) : Globals :=
  mkGlobals (fun _ => data) 1 0 None None None None None [] [] [].

Definition M (A : Type) : Type := Globals -> Globals * result A.

Definition ret {A : Type} (a : A) : M A := fun s => (s, Ok a).

Definition raise {A : Type} (e : exn) : M A := fun s => (s, Raise e).

Definition bind {A B : Type} (m : M A) (k : A -> M B) : M B :=
  fun s =>
    match m s with
    | (s', Ok a) => k a s'
    | (s', Raise e) => (s', Raise e)
    end.

Declare Scope script_scope.
Delimit Scope script_scope with script.
Notation "x <- c1 ;; c2" := (bind c1 (fun x => c2))
  (at level 61, c1 at next level, right associativity) : script_scope.
Notation "c1 ;; c2" := (bind c1 (fun _ => c2))
  (at level 61, right associativity) : script_scope.
#[local] Open Scope script_scope.

(** [try: body except Exception as e: handler] *)
Definition try_except (body : M unit) (handler : exn -> M unit) : M unit :=
  fun s =>
    match body s with
    | (s', Ok tt) => (s', Ok tt)
    | (s', Raise e) => handler e s'
    end.

(** [for x in xs: body] *)
Fixpoint for_each {A : Type} (xs : list A) (body : A -> M unit) : M unit :=
  match xs with
  | [] => ret tt
  | x :: rest => body x ;; for_each rest body
  end.

Definition lift {A : Type} (r : result A) : M A := fun s => (s, r).

(** Reading a global name. *)
Definition load {A : Type} (name : string) (var : Globals -> option A) : M A :=
  fun s =>
    match var s with
    | Some v => (s, Ok v)
    | None => (s, Raise (NameError name))
    end.

Definition load_df : M nat := fun s => (s, Ok (g_df s)).

(** The frame an address names. *)
Definition frame_at (a : nat) : M DataFrame := fun s => (s, Ok (g_heap s a)).

(** A pandas expression that builds a frame ([frame[mask]]) gives a new
    object, at a free address. *)
Definition new_frame (frame : DataFrame) : M nat :=
  fun s => (mkGlobals
              (fun a => if Nat.eqb a (g_next s) then frame else g_heap s a)
              (S (g_next s)) (g_df s) (g_filtered_df s) (g_sales_rep_df s)
              (g_message s) (g_Mobile s) (g_email s) (g_ui s) (g_sms_out s)
              (g_mail_out s),
            Ok (g_next s)).

(** An assignment into a frame ([frame[name] = values], as line 18 does to
    the frame being loaded) changes the object at its address. *)
Definition frame_assign (a : nat) (update : DataFrame -> DataFrame) : M unit :=
  fun s => (mkGlobals
              (fun b => if Nat.eqb b a then update (g_heap s a) else g_heap s b)
              (g_next s) (g_df s) (g_filtered_df s) (g_sales_rep_df s)
              (g_message s) (g_Mobile s) (g_email s) (g_ui s) (g_sms_out s)
              (g_mail_out s),
            Ok tt).

Definition store_filtered_df (a : nat) : M unit :=
  fun s => (mkGlobals (g_heap s) (g_next s) (g_df s) (Some a) (g_sales_rep_df s)
              (g_message s) (g_Mobile s) (g_email s) (g_ui s) (g_sms_out s)
              (g_mail_out s),
            Ok tt).

Definition store_sales_rep_df (a : nat) : M unit :=
  fun s => (mkGlobals (g_heap s) (g_next s) (g_df s) (g_filtered_df s) (Some a)
              (g_message s) (g_Mobile s) (g_email s) (g_ui s) (g_sms_out s)
              (g_mail_out s),
            Ok tt).

Definition store_message (v : pyval) : M unit :=
  fun s => (mkGlobals (g_heap s) (g_next s) (g_df s) (g_filtered_df s)
              (g_sales_rep_df s) (Some v) (g_Mobile s) (g_email s) (g_ui s)
              (g_sms_out s) (g_mail_out s),
            Ok tt).

Definition store_Mobile (v : string) : M unit :=
  fun s => (mkGlobals (g_heap s) (g_next s) (g_df s) (g_filtered_df s)
              (g_sales_rep_df s) (g_message s) (Some v) (g_email s) (g_ui s)
              (g_sms_out s) (g_mail_out s),
            Ok tt).

Definition store_email (v : string) : M unit :=
  fun s => (mkGlobals (g_heap s) (g_next s) (g_df s) (g_filtered_df s)
              (g_sales_rep_df s) (g_message s) (g_Mobile s) (Some v) (g_ui s)
              (g_sms_out s) (g_mail_out s),
            Ok tt).

(** A display call. *)
Definition st (c : st_call) : M unit :=
  fun s => (mkGlobals (g_heap s) (g_next s) (g_df s) (g_filtered_df s)
              (g_sales_rep_df s) (g_message s) (g_Mobile s) (g_email s)
              (g_ui s ++ [c]) (g_sms_out s) (g_mail_out s),
            Ok tt).

(** [client.messages.create(body=..., from_=..., to=...)]: the request goes
    out, the gateway answers. *)
Definition client_messages_create (w : World) (req : SmsRequest)
  : M MessageInstance :=
  fun s => (mkGlobals (g_heap s) (g_next s) (g_df s) (g_filtered_df s)
              (g_sales_rep_df s) (g_message s) (g_Mobile s) (g_email s)
              (g_ui s) (g_sms_out s ++ [req]) (g_mail_out s),
            messages_create w (List.length (g_sms_out s)) req).

(** Lines 349-353: connect, STARTTLS, login, sendmail, quit. *)
Definition smtp_send (w : World) (req : EmailRequest) : M unit :=
  fun s => (mkGlobals (g_heap s) (g_next s) (g_df s) (g_filtered_df s)
              (g_sales_rep_df s) (g_message s) (g_Mobile s) (g_email s)
              (g_ui s) (g_sms_out s) (g_mail_out s ++ [req]),
            smtp_session w (List.length (g_mail_out s)) req).

(** [row[name]] on a row yielded by [iterrows]: a column that is not in the
    header is a [KeyError]. *)
Definition row_getitem {A : Type} (header : list string) (name : string)
  (cell : A) : M A :=
  if existsb (String.eqb name) header then ret cell
  else raise (KeyError name).

(** [frame[name]] and [frame.groupby(name)]: a name that is not in the
    header is a [KeyError]. *)
Definition frame_getitem (name : string) (frame : DataFrame) : M unit :=
  if has_column name frame then ret tt
  else raise (KeyError name).

(** [frame.groupby(...)[name]]: selecting a column that is not in the header
    is a [KeyError]. *)
Definition require_column (name : string) (frame : DataFrame) : M unit :=
  if has_column name frame then ret tt
  else raise (KeyError ("Column not found: " ++ name)).

(** ['a', 'b'], the text of a list of names *)
Fixpoint quoted_names (names : list string) : string :=
  match names with
  | [] => ""
  | [n] => "'" ++ n ++ "'"
  | n :: rest => "'" ++ n ++ "', " ++ quoted_names rest
  end.

(** [frame.groupby(...)[[name1, name2]]]: the names that are not in the
    header are reported in one [KeyError] (pandas lists them in the order of
    a set; here they are in the order of the selection). *)
Definition require_columns (names : list string) (frame : DataFrame) : M unit :=
  match filter (fun n => negb (has_column n frame)) names with
  | [] => ret tt
  | missing => raise (KeyError ("Columns not found: " ++ quoted_names missing))
  end.

(** A plotly express argument that names a column: a name that is not in
    the header of the frame is a [ValueError]. *)
Definition px_column (argument name : string) (frame : DataFrame) : M unit :=
  if has_column name frame then ret tt
  else raise (ValueError
                ("Value of '" ++ argument
                 ++ "' is not the name of a column in 'data_frame'. Expected one of ["
                 ++ quoted_names (columns frame) ++ "] but received: " ++ name)).

(** [series.min()] and [series.max()] of the dates: nothing (NaT) for an
    empty column. *)
Definition Series_min (values : list Z) : option Z :=
  match values with
  | [] => None
  | v :: rest => Some (fold_left Z.min rest v)
  end.

Definition Series_max (values : list Z) : option Z :=
  match values with
  | [] => None
  | v :: rest => Some (fold_left Z.max rest v)
  end.

(** [st.sidebar.date_input(label, value, min_value=..., max_value=...)]:
    the widget cannot render NaT and raises. *)
Definition date_input (value : option Z) : M unit :=
  match value with
  | Some _ => ret tt
  | None => raise (ValueError "NaTType does not support timetuple")
  end.

(** [message.format(bonus=bonus)] *)
Definition method_format (w : World) (v : pyval) (bonus : Z) : M string :=
  match v with
  | PyStr template => lift (str_format w template bonus)
  | PyMessageInstance _ => raise (AttributeError "MessageInstance" "format")
  end.

(** [str] of an integer, for the f-strings. *)
Definition str_of_Z (z : Z) : string := NilZero.string_of_int (Z.to_int z).

(** The frame the variable [df] names. *)
Definition read_df : M DataFrame :=
  d <- load_df ;; frame_at d.

(** The frame the variable [filtered_df] names. *)
Definition read_filtered_df : M DataFrame :=
  fdf <- load "filtered_df" g_filtered_df ;; frame_at fdf.

(** The frame the variable [sales_rep_df] names. *)
Definition read_sales_rep_df : M DataFrame :=
  srdf <- load "sales_rep_df" g_sales_rep_df ;; frame_at srdf.

(** ** Controls *)

Inductive Page :=
| Overview
| Sales_Analysis
| Profit_Analysis
| Geographical_Analysis
| Sales_Rep_Analysis
| Send_Notifications.

Inductive Channel :=
| SMS
| Email.

(** The values the widgets return in one run (sidebar, radio buttons, text
    inputs and the two send buttons).  Widgets and layout calls leave no
    other trace in the model. *)
Record Controls := mkControls {
  region : list string;
  category : list string;
  segment : list string;
  start_date : Z;
  end_date : Z;
  top_n : Z;
  page : Page;
  sales_reps : list string;
  notification_type : Channel;
  message_text : string;
  twilio_account_sid : string;
  twilio_auth_token : string;
  twilio_phone_number : string;
  send_sms_clicked : bool;
  smtp_server : string;
  smtp_port : Z;
  smtp_username : string;
  smtp_password : string;
  send_email_clicked : bool
}.

(** [not s] for a string *)
Definition py_not (s : string) : bool := String.eqb s "".

(** ** Sidebar (lines 23-38) *)

(** The options and the default of a selector: [df[name].unique()], read
    twice. *)
Definition multiselect (name : string) : M unit :=
  frame <- read_df ;; frame_getitem name frame ;;
  frame <- read_df ;; frame_getitem name frame.

(** The three selectors, the bounds of the dates and the two date pickers.
    The values the widgets return are in the controls. *)
Definition sidebar : M unit :=
  multiselect "Region" ;;
  multiselect "Category" ;;
  multiselect "Segment" ;;
  frame <- read_df ;; frame_getitem "Order Date" frame ;;
  let min_date := Series_min (map Order_Date (rows frame)) in
  frame <- read_df ;; frame_getitem "Order Date" frame ;;
  let max_date := Series_max (map Order_Date (rows frame)) in
  date_input min_date ;;
  date_input max_date.

(** Lines 41-47: [filtered_df] names a new frame. *)
Definition apply_global_filters (c : Controls) : M unit :=
  frame <- read_df ;;
  fdf <- new_frame (apply_filters frame (region c) (category c) (segment c)
                      (start_date c) (end_date c)) ;;
  store_filtered_df fdf.

(** ** Pages *)

(** Page 1 (lines 58-96) *)
Definition page_overview (c : Controls) : M unit :=
  st (st_title "📊 Superstore Analytics - Overview") ;;
  st (st_markdown "Welcome to the Superstore Analytics Dashboard! Explore insights across sales, profit, and customer segments.") ;;
  st (st_subheader "Key Performance Indicators (KPIs)") ;;
  frame <- read_filtered_df ;; frame_getitem "Sales" frame ;;
  st (st_metric "Total Sales" (fmt_SAR (Series_sum (map Sales (rows frame))))) ;;
  frame <- read_filtered_df ;; frame_getitem "Profit" frame ;;
  st (st_metric "Total Profit" (fmt_SAR (Series_sum (map Profit (rows frame))))) ;;
  frame <- read_filtered_df ;; frame_getitem "Discount" frame ;;
  st (st_metric "Average Discount"
        (fmt_percent (Series_mean (map Discount (rows frame))))) ;;
  st (st_subheader "Sales and Profit Trends Over Time") ;;
  frame <- read_filtered_df ;; frame_getitem "Order Date" frame ;;
  require_columns ["Sales"; "Profit"] frame ;;
  let trend_data := groupby_sum2 Order_Date Sales Profit (rows frame) in
  st (st_plotly_chart "line" "Sales and Profit Over Time" (line_data trend_data)) ;;
  st (st_subheader ("Top " ++ str_of_Z (top_n c) ++ " Products by Sales")) ;;
  frame <- read_filtered_df ;; frame_getitem "Product Name" frame ;;
  require_column "Sales" frame ;;
  let top_products := top_n_by Product_Name Sales (top_n c) (rows frame) in
  st (st_plotly_chart "bar"
        ("Top " ++ str_of_Z (top_n c) ++ " Products by Sales")
        (bar_data top_products)).

(** Page 2 (lines 99-152) *)
Definition page_sales (c : Controls) : M unit :=
  st (st_title "📈 Sales Analysis") ;;
  st (st_markdown "Explore sales trends and performance across categories, sub-categories, and regions.") ;;
  st (st_subheader "Sales by Category") ;;
  frame <- read_filtered_df ;; frame_getitem "Category" frame ;;
  require_column "Sales" frame ;;
  let sales_by_category := groupby_sum Category Sales (rows frame) in
  st (st_plotly_chart "bar" "Sales by Category" (bar_data sales_by_category)) ;;
  st (st_subheader "Sales by Sub-Category (Treemap)") ;;
  frame <- read_filtered_df ;;
  px_column "values" "Sales" frame ;;
  px_column "path_0" "Category" frame ;;
  px_column "path_1" "Sub-Category" frame ;;
  px_column "color" "Sales" frame ;;
  st (st_plotly_chart "treemap" "Sales Distribution by Sub-Category"
        (frame_data (rows frame))) ;;
  st (st_subheader ("Top " ++ str_of_Z (top_n c) ++ " States by Sales")) ;;
  frame <- read_filtered_df ;; frame_getitem "State" frame ;;
  require_column "Sales" frame ;;
  let sales_by_state := top_n_by State Sales (top_n c) (rows frame) in
  st (st_plotly_chart "bar"
        ("Top " ++ str_of_Z (top_n c) ++ " States by Sales")
        (bar_data sales_by_state)) ;;
  st (st_subheader ("Top " ++ str_of_Z (top_n c) ++ " Cities by Sales")) ;;
  frame <- read_filtered_df ;; frame_getitem "City" frame ;;
  require_column "Sales" frame ;;
  let sales_by_city := top_n_by City Sales (top_n c) (rows frame) in
  st (st_plotly_chart "bar"
        ("Top " ++ str_of_Z (top_n c) ++ " Cities by Sales")
        (bar_data sales_by_city)).

(** Page 3 (lines 155-184) *)
Definition page_profit (c : Controls) : M unit :=
  st (st_title "💰 Profit Analysis") ;;
  st (st_markdown "Analyze profit trends and performance across categories, regions, and customer segments.") ;;
  st (st_subheader "Profit by Region") ;;
  frame <- read_filtered_df ;; frame_getitem "Region" frame ;;
  require_column "Profit" frame ;;
  let profit_by_region := groupby_sum Region Profit (rows frame) in
  st (st_plotly_chart "bar" "Profit by Region" (bar_data profit_by_region)) ;;
  st (st_subheader "Profit vs Sales") ;;
  frame <- read_filtered_df ;;
  px_column "x" "Sales" frame ;;
  px_column "y" "Profit" frame ;;
  px_column "size" "Quantity" frame ;;
  px_column "hover_name" "Sub-Category" frame ;;
  px_column "color" "Category" frame ;;
  st (st_plotly_chart "scatter" "Profit vs Sales by Category"
        (frame_data (rows frame))).

(** Page 4 (lines 187-217) *)
Definition page_geo (c : Controls) : M unit :=
  st (st_title "🌍 Geographical Analysis") ;;
  st (st_markdown "Explore sales and profit performance across regions and states.") ;;
  st (st_subheader "Sales by State (Choropleth Map)") ;;
  frame <- read_filtered_df ;; frame_getitem "State" frame ;;
  require_column "Sales" frame ;;
  let sales_by_state := groupby_sum State Sales (rows frame) in
  st (st_plotly_chart "choropleth" "Sales by State (USA)"
        (bar_data sales_by_state)) ;;
  st (st_subheader "Profit by State (Choropleth Map)") ;;
  frame <- read_filtered_df ;; frame_getitem "State" frame ;;
  require_column "Profit" frame ;;
  let profit_by_state := groupby_sum State Profit (rows frame) in
  st (st_plotly_chart "choropleth" "Profit by State (USA)"
        (bar_data profit_by_state)).

(** Line 230: [sales_rep_df] names a new frame. *)
Definition apply_sales_rep_filter (c : Controls) : M unit :=
  frame <- read_filtered_df ;; frame_getitem "SalesRep" frame ;;
  srdf <- new_frame (getitem_mask frame
                       (fun r => isin (sales_reps c) (SalesRep r))) ;;
  store_sales_rep_df srdf.

(** Page 5 (lines 220-281) *)
Definition page_sales_rep (c : Controls) : M unit :=
  st (st_title "🧑‍💼 Sales Representative Analysis") ;;
  st (st_markdown "Analyze individual performance of sales representatives.") ;;
  d <- read_df ;;
  if has_column "SalesRep" d then
    multiselect "SalesRep" ;;
    apply_sales_rep_filter c ;;
    st (st_subheader "Key Metrics for Sales Reps") ;;
    frame <- read_sales_rep_df ;; frame_getitem "Sales" frame ;;
    st (st_metric "Total Sales" (fmt_SAR (Series_sum (map Sales (rows frame))))) ;;
    frame <- read_sales_rep_df ;; frame_getitem "Profit" frame ;;
    st (st_metric "Total Profit" (fmt_SAR (Series_sum (map Profit (rows frame))))) ;;
    frame <- read_sales_rep_df ;; frame_getitem "Discount" frame ;;
    st (st_metric "Average Discount"
          (fmt_percent (Series_mean (map Discount (rows frame))))) ;;
    st (st_subheader
          ("Top " ++ str_of_Z (top_n c) ++ " Sales Representatives by Sales")) ;;
    frame <- read_sales_rep_df ;; frame_getitem "SalesRep" frame ;;
    require_column "Sales" frame ;;
    let top_sales_reps := top_n_by SalesRep Sales (top_n c) (rows frame) in
    st (st_plotly_chart "bar"
          ("Top " ++ str_of_Z (top_n c) ++ " Sales Reps by Sales")
          (bar_data top_sales_reps)) ;;
    st (st_subheader
          ("Top " ++ str_of_Z (top_n c) ++ " Sales Representatives by Profit")) ;;
    frame <- read_sales_rep_df ;; frame_getitem "SalesRep" frame ;;
    require_column "Profit" frame ;;
    let top_profit_reps := top_n_by SalesRep Profit (top_n c) (rows frame) in
    st (st_plotly_chart "bar"
          ("Top " ++ str_of_Z (top_n c) ++ " Sales Reps by Profit")
          (bar_data top_profit_reps)) ;;
    st (st_subheader
          ("Top " ++ str_of_Z (top_n c) ++ " Sales Representatives by Bonus")) ;;
    frame <- read_sales_rep_df ;; frame_getitem "SalesRep" frame ;;
    require_column "Bonus" frame ;;
    let top_bonus_reps := top_n_by SalesRep Bonus (top_n c) (rows frame) in
    st (st_plotly_chart "bar"
          ("Top " ++ str_of_Z (top_n c) ++ " Sales Reps by Bonus")
          (bar_data top_bonus_reps))
  else
    st (st_warning "No 'Sales Rep' column found in the dataset.").

(** ** Notification dispatcher (lines 284-356) *)

(** The body of the SMS loop (lines 312-323) for one row of the view. *)
Definition sms_row (w : World) (header : list string) (c : Controls)
  (row : Row) : M unit :=
  try_except
    (bonus <- row_getitem header "Bonus" (Bonus row) ;;
     cell <- row_getitem header "Mobile" (Mobile row) ;;
     store_Mobile cell ;;
     template <- load "message" g_message ;;
     personalized_message <- method_format w template bonus ;;
     to <- load "Mobile" g_Mobile ;;
     response <- client_messages_create w
       (mkSmsRequest personalized_message (twilio_phone_number c) to) ;;
     store_message (PyMessageInstance response) ;;
     to <- load "Mobile" g_Mobile ;;
     st (st_success ("SMS sent to " ++ to ++ " successfully!")))
    (fun e =>
       to <- load "Mobile" g_Mobile ;;
       st (st_error ("Failed to send SMS to " ++ to ++ ": " ++ exn_str e))).

(** The body of the email loop (lines 338-356) for one row of the view. *)
Definition email_row (w : World) (header : list string) (c : Controls)
  (row : Row) : M unit :=
  try_except
    (bonus <- row_getitem header "Bonus" (Bonus row) ;;
     cell <- row_getitem header "email" (email row) ;;
     store_email cell ;;
     template <- load "message" g_message ;;
     personalized_message <- method_format w template bonus ;;
     to <- load "email" g_email ;;
     smtp_send w
       (mkEmailRequest (smtp_server c) (smtp_port c) (smtp_username c)
          (smtp_password c) (smtp_username c) to "Your Bonus Information"
          personalized_message) ;;
     to <- load "email" g_email ;;
     st (st_success ("Email sent to " ++ to ++ " successfully!")))
    (fun e =>
       to <- load "email" g_email ;;
       st (st_error ("Failed to send email to " ++ to ++ ": " ++ exn_str e))).

(** [for index, row in filtered_df.iterrows(): ...] *)
Definition sms_loop (w : World) (c : Controls) : M unit :=
  frame <- read_filtered_df ;;
  for_each (rows frame) (sms_row w (columns frame) c).

Definition email_loop (w : World) (c : Controls) : M unit :=
  frame <- read_filtered_df ;;
  for_each (rows frame) (email_row w (columns frame) c).

(** Page 6 *)
Definition page_notifications (w : World) (c : Controls) : M unit :=
  st (st_title "📨 Send Notifications") ;;
  st (st_markdown "Send SMS or email notifications to customers with their bonus and other information.") ;;
  d <- read_df ;;
  if negb (has_column "Mobile" d) then
    st (st_error "The dataset must contain 'Mobile' and 'email' columns to send notifications.")
  else
    st (st_subheader "Customize Message") ;;
    store_message (PyStr (message_text c)) ;;
    match notification_type c with
    | SMS =>
        st (st_subheader "Send SMS") ;;
        if send_sms_clicked c then
          if py_not (twilio_account_sid c) || py_not (twilio_auth_token c)
             || py_not (twilio_phone_number c)
          then st (st_error "Please provide Twilio credentials.")
          else sms_loop w c
        else ret tt
    | Email =>
        st (st_subheader "Send Email") ;;
        if send_email_clicked c then
          if py_not (smtp_username c) || py_not (smtp_password c)
          then st (st_error "Please provide SMTP credentials.")
          else email_loop w c
        else ret tt
    end.

(** ** The script *)

(** The page router (lines 58-356). *)
Definition route (w : World) (c : Controls) : M unit :=
  match page c with
  | Overview => page_overview c
  | Sales_Analysis => page_sales c
  | Profit_Analysis => page_profit c
  | Geographical_Analysis => page_geo c
  | Sales_Rep_Analysis => page_sales_rep c
  | Send_Notifications => page_notifications w c
  end.

(** One run, from the sidebar (line 23) to the footer (line 360). *)
Definition script (w : World) (c : Controls) : M unit :=
  sidebar ;;
  apply_global_filters c ;;
  route w c ;;
  st (st_markdown "---") ;;
  st (st_markdown "Built with ❤️ using Streamlit and Plotly.").

(** A run on the loaded dataset. *)
Definition run (w : World) (data : DataFrame) (c : Controls)
  : Globals * result unit :=
  script w c (init_state data).

(** The success and failure reports of the dispatcher, in order. *)
Inductive report :=
| Sent
| Failed.

Fixpoint reports (ui : list st_call) : list report :=
  match ui with
  | [] => []
  | st_success _ :: rest => Sent :: reports rest
  | st_error _ :: rest => Failed :: reports rest
  | _ :: rest => reports rest
  end.

(** A step that keeps a property of the globals, whether it returns or
    raises. *)
Definition preserves {B : Type} (P : Globals -> Prop) (m : M B) : Prop :=
  forall s, P s -> P (fst (m s)).

(** [df] still names the object it named when the run started, that object
    holds the loaded dataset, and neither [filtered_df] nor [sales_rep_df]
    names it. *)
Definition dataset_intact (data : DataFrame) (s : Globals) : Prop :=
  g_df s = 0%nat /\ g_heap s 0%nat = data /\ (1 <= g_next s)%nat /\
  g_filtered_df s <> Some 0%nat /\ g_sales_rep_df s <> Some 0%nat.

(** The columns the sidebar reads, and the columns the input file must
    have. *)
Definition sidebar_columns : list string :=
  ["Region"; "Category"; "Segment"; "Order Date"].

Definition required_columns : list string :=
  ["Region"; "Category"; "Segment"; "Order Date"; "Sales"; "Profit";
   "Discount"; "Quantity"; "Product Name"; "State"; "City"; "Sub-Category"].

Definition has_columns (names : list string) (frame : DataFrame) : bool :=
  forallb (fun name => has_column name frame) names.

(** Warnings and errors on the display. *)
Definition is_alert (c : st_call) : bool :=
  match c with
  | st_warning _ | st_error _ => true
  | _ => false
  end.

(** Metrics and charts on the display. *)
Definition is_aggregate (c : st_call) : bool :=
  match c with
  | st_metric _ _ | st_plotly_chart _ _ _ => true
  | _ => false
  end.

(** The failure message of the SMS loop for a row once [message] is no
    longer a string. *)
Definition sms_rebound_failure (row : Row) : st_call :=
  st_error ("Failed to send SMS to " ++ Mobile row ++ ": "
            ++ exn_str (AttributeError "MessageInstance" "format")).

(** The display reports an explicit no-data state for the Average Discount
    KPI: an alert is shown and the metric is not the rendering of NaN. *)
Definition no_data_reported (ui : list st_call) : Prop :=
  existsb is_alert ui = true /\
  ~ In (st_metric "Average Discount" (fmt_percent NaN)) ui.

(** ** Sample data *)

Definition full_header : list string :=
  ["Region"; "Category"; "Segment"; "Order Date"; "Sales"; "Profit";
   "Discount"; "Quantity"; "Product Name"; "State"; "City"; "Sub-Category";
   "SalesRep"; "Bonus"; "Mobile"; "email"].

Definition row_west : Row :=
  mkRow "West" "Furniture" "Consumer" 20240215 2619600 419100 0 2
    "Bush Somerset Bookcase" "California" "Los Angeles" "Bookcases"
    "Aisha" 500 "+966500000001" "aisha@example.com".

Definition row_east : Row :=
  mkRow "East" "Technology" "Corporate" 20240310 9075200 1131300 2000 3
    "Cisco IP Phone" "New York" "New York City" "Phones"
    "Bilal" 750 "+966500000002" "bilal@example.com".

Definition row_south : Row :=
  mkRow "South" "Office Supplies" "Home Office" 20240705 146200 68700 0 2
    "Avery Binder" "Florida" "Miami" "Binders"
    "Aisha" 120 "+966500000003" "carol@example.com".

Definition row_west2 : Row :=
  mkRow "West" "Technology" "Consumer" 20240301 500000 (-20000) 1500 1
    "Cisco IP Phone" "Washington" "Seattle" "Phones"
    "Bilal" 300 "+966500000004" "dana@example.com".

Definition sample_rows : list Row := [row_west; row_east; row_south; row_west2].

Definition sample_df : DataFrame := mkDataFrame full_header sample_rows.

(** The header of a file without the email column. *)
Definition header_without_email : list string :=
  ["Region"; "Category"; "Segment"; "Order Date"; "Sales"; "Profit";
   "Discount"; "Quantity"; "Product Name"; "State"; "City"; "Sub-Category";
   "SalesRep"; "Bonus"; "Mobile"].

(** The header of a file without the SalesRep column. *)
Definition header_without_SalesRep : list string :=
  ["Region"; "Category"; "Segment"; "Order Date"; "Sales"; "Profit";
   "Discount"; "Quantity"; "Product Name"; "State"; "City"; "Sub-Category";
   "Bonus"; "Mobile"; "email"].

(** The header of a file without the Bonus column. *)
Definition header_without_Bonus : list string :=
  ["Region"; "Category"; "Segment"; "Order Date"; "Sales"; "Profit";
   "Discount"; "Quantity"; "Product Name"; "State"; "City"; "Sub-Category";
   "SalesRep"; "Mobile"; "email"].

Definition two_rows_df : DataFrame := mkDataFrame full_header [row_west; row_east].

(** [str.format] on templates made of plain text and named fields, without
    brace escapes, conversions or format specifications: the field [bonus]
    is replaced, an empty field is an [IndexError] (there are no positional
    arguments), any other field name is a [KeyError]. *)
Fixpoint format_fields (template : string) (field : option string)
  (bonus : string) : result string :=
  match template, field with
  | EmptyString, None => Ok EmptyString
  | EmptyString, Some _ => Raise (ValueError "expected '}' before end of string")
  | String ch rest, None =>
      if Ascii.eqb ch "{"%char then format_fields rest (Some EmptyString) bonus
      else if Ascii.eqb ch "}"%char
      then Raise (ValueError "Single '}' encountered in format string")
      else match format_fields rest None bonus with
           | Ok s => Ok (String ch s)
           | Raise e => Raise e
           end
  | String ch rest, Some name =>
      if Ascii.eqb ch "}"%char then
        if String.eqb name "bonus" then
          match format_fields rest None bonus with
          | Ok s => Ok (bonus ++ s)%string
          | Raise e => Raise e
          end
        else if String.eqb name EmptyString then
          Raise (IndexError
                   "Replacement index 0 out of range for positional args tuple")
        else Raise (KeyError name)
      else format_fields rest (Some (name ++ String ch EmptyString)%string) bonus
  end.

Definition sample_format (template : string) (bonus : Z) : result string :=
  format_fields template None (str_of_Z bonus).

(** A world in which every request is delivered. *)
Definition world_ok : World :=
  mkWorld sample_format
    (fun n _ => Ok (mkMessageInstance ("SM" ++ str_of_Z (Z.of_nat n))))
    (fun _ _ => Ok tt).

(** A world in which the second request to either service is refused. *)
Definition world_second_refused : World :=
  mkWorld sample_format
    (fun n _ =>
       if Nat.eqb n 1 then Raise (TwilioRestException "Unable to create record")
       else Ok (mkMessageInstance ("SM" ++ str_of_Z (Z.of_nat n))))
    (fun n _ =>
       if Nat.eqb n 1 then Raise (SMTPException "Connection unexpectedly closed")
       else Ok tt).

(** Controls with every selection at its default, credentials typed in and
    the send button of the channel pressed. *)
Definition sample_controls (p : Page) (ch : Channel) : Controls :=
  mkControls ["West"; "East"; "South"]
    ["Furniture"; "Technology"; "Office Supplies"]
    ["Consumer"; "Corporate"; "Home Office"]
    20240101 20241231 10 p ["Aisha"; "Bilal"] ch
    "Dear Customer, your bonus for this month is SAR {bonus}. Thank you for your continued support!"
    "ACxxxxxxxx" "token" "+15005550006" true
    "smtp.gmail.com" 587 "store@example.com" "secret" true.

(** The same controls with the region selector emptied. *)
Definition controls_no_region (p : Page) : Controls :=
  mkControls []
    ["Furniture"; "Technology"; "Office Supplies"]
    ["Consumer"; "Corporate"; "Home Office"]
    20240101 20241231 10 p ["Aisha"; "Bilal"] SMS
    "Dear Customer, your bonus for this month is SAR {bonus}. Thank you for your continued support!"
    "" "" "" false "smtp.gmail.com" 587 "" "" false.

(** The globals when the SMS loop is entered on the sample dataset. *)
Definition sms_loop_entry : Globals :=
  mkGlobals (fun _ => sample_df) 2 0 (Some 1%nat) None
    (Some (PyStr (message_text (sample_controls Send_Notifications SMS))))
    None None [] [] [].

(** Controls that keep the West and South regions and the sales
    representative Aisha. *)
Definition controls_west_south_aisha (p : Page) : Controls :=
  mkControls ["West"; "South"]
    ["Furniture"; "Technology"; "Office Supplies"]
    ["Consumer"; "Corporate"; "Home Office"]
    20240101 20241231 10 p ["Aisha"] SMS
    "Dear Customer, your bonus for this month is SAR {bonus}. Thank you for your continued support!"
    "" "" "" false "smtp.gmail.com" 587 "" "" false.

(** A file with the header and no transaction. *)
Definition header_only_df : DataFrame := mkDataFrame full_header [].

(** * Properties *)

(** ** Filter engine *)

Lemma isin_In (values : list string) (cell : string) :
  isin values cell = true <-> In cell values.
Proof.
  unfold isin. rewrite existsb_exists. split.
  - intros [v [Hin Heq]]. apply String.eqb_eq in Heq. now subst.
  - intros Hin. exists cell. split; [assumption | apply String.eqb_refl].
Qed.

Lemma filter_mask_true region category segment start_date end_date r :
  filter_mask region category segment start_date end_date r = true <->
  In (Region r) region /\ In (Category r) category /\ In (Segment r) segment /\
  start_date <= Order_Date r <= end_date.
Proof.
  unfold filter_mask. rewrite !andb_true_iff, !isin_In, !Z.leb_le. tauto.
Qed.

(** ** The group kernel *)

Section GroupBy.
Context {K : Type} `{KO : KeyOrder K}.

Lemma key_compare_refl (a : K) : key_compare a a = Eq.
Proof. now apply key_compare_eq. Qed.

Lemma key_compare_Gt (a b : K) : key_compare a b = Gt -> key_compare b a = Lt.
Proof.
  intros E. rewrite key_compare_antisym, E. reflexivity.
Qed.

Lemma key_lt_irrefl (a : K) : ~ key_lt a a.
Proof. unfold key_lt. rewrite key_compare_refl. discriminate. Qed.

Lemma group_add_keys {V : Type} (add : V -> V -> V) k v (acc : list (K * V)) k2 :
  In k2 (map fst (group_add add k v acc)) <-> k2 = k \/ In k2 (map fst acc).
Proof.
  induction acc as [|[k' s] rest IH]; simpl.
  - intuition.
  - destruct (key_compare k k') eqn:E; simpl.
    + apply key_compare_eq in E. subst k'. intuition.
    + intuition.
    + rewrite IH. intuition.
Qed.

Lemma group_add_sorted {V : Type} (add : V -> V -> V) k v (acc : list (K * V)) :
  StronglySorted key_lt (map fst acc) ->
  StronglySorted key_lt (map fst (group_add add k v acc)).
Proof.
  induction acc as [|[k' s] rest IH]; simpl; intros Hs.
  - constructor; constructor.
  - inversion Hs as [|? ? Hrest Hall]; subst.
    destruct (key_compare k k') eqn:E; simpl.
    + constructor; assumption.
    + constructor; [assumption|].
      constructor; [exact E|].
      rewrite Forall_forall in *. intros x Hx.
      unfold key_lt in *. eapply key_compare_trans; [exact E | now apply Hall].
    + constructor; [now apply IH|].
      rewrite Forall_forall in *. intros x Hx.
      apply group_add_keys in Hx. destruct Hx as [-> | Hx].
      * now apply key_compare_Gt.
      * now apply Hall.
Qed.

Lemma StronglySorted_key_lt_NoDup (keys : list K) :
  StronglySorted key_lt keys -> NoDup keys.
Proof.
  induction 1 as [|a l Hs IH Hall]; constructor; [|assumption].
  intros Hin. rewrite Forall_forall in Hall.
  exact (key_lt_irrefl a (Hall a Hin)).
Qed.

Lemma fold_group_keys {V : Type} (add : V -> V -> V) (key : Row -> K)
  (val : Row -> V) (view : list Row) (acc : list (K * V)) k :
  In k (map fst (fold_left (fun a r => group_add add (key r) (val r) a) view acc))
  <-> In k (map key view) \/ In k (map fst acc).
Proof.
  revert acc. induction view as [|r rest IH]; intros acc; simpl.
  - intuition.
  - rewrite IH, group_add_keys. intuition.
Qed.

Lemma fold_group_sorted {V : Type} (add : V -> V -> V) (key : Row -> K)
  (val : Row -> V) (view : list Row) (acc : list (K * V)) :
  StronglySorted key_lt (map fst acc) ->
  StronglySorted key_lt
    (map fst (fold_left (fun a r => group_add add (key r) (val r) a) view acc)).
Proof.
  revert acc. induction view as [|r rest IH]; intros acc Hs; simpl.
  - assumption.
  - apply IH. now apply group_add_sorted.
Qed.

Lemma groupby_agg_keys {V : Type} (add : V -> V -> V) key (val : Row -> V) view k :
  In k (map fst (groupby_agg add key val view)) <-> In k (map key view).
Proof.
  unfold groupby_agg. rewrite fold_group_keys. simpl. intuition.
Qed.

Lemma groupby_agg_sorted {V : Type} (add : V -> V -> V) key (val : Row -> V) view :
  StronglySorted key_lt (map fst (groupby_agg add key val view)).
Proof. apply fold_group_sorted. constructor. Qed.

Lemma groupby_agg_NoDup {V : Type} (add : V -> V -> V) key (val : Row -> V) view :
  NoDup (map fst (groupby_agg add key val view)).
Proof. apply StronglySorted_key_lt_NoDup, groupby_agg_sorted. Qed.

(** One group per distinct key of the view. *)
Lemma groupby_agg_length {V : Type} (add : V -> V -> V) key (val : Row -> V) view :
  List.length (groupby_agg add key val view) = distinct_groups key view.
Proof.
  unfold distinct_groups.
  rewrite <- (length_map fst (groupby_agg add key val view)).
  apply Permutation_length, NoDup_Permutation.
  - apply groupby_agg_NoDup.
  - apply NoDup_nodup.
  - intros k. rewrite groupby_agg_keys, nodup_In. reflexivity.
Qed.

End GroupBy.

(** ** Top-N *)

Lemma MeasureDesc_trans :
  Transitive (fun x y : string * Z => is_true (MeasureDesc.leb x y)).
Proof.
  intros x y z. unfold MeasureDesc.leb, is_true. rewrite !Z.leb_le. lia.
Qed.

Lemma In_firstn {A : Type} (n : nat) (l : list A) (x : A) :
  In x (firstn n l) -> In x l.
Proof.
  revert n. induction l as [|a l IH]; intros [|n]; simpl; try tauto.
  intros [-> | Hin]; [now left | right; eauto].
Qed.

Lemma StronglySorted_firstn {A : Type} (R : A -> A -> Prop) (n : nat) (l : list A) :
  StronglySorted R l -> StronglySorted R (firstn n l).
Proof.
  intros Hs. revert n. induction Hs as [|a l Hs IH Hall]; intros [|n]; simpl;
    try constructor.
  - apply IH.
  - rewrite Forall_forall in *. intros x Hx. apply Hall.
    eapply In_firstn; eassumption.
Qed.

Lemma StronglySorted_weaken {A : Type} (R R' : A -> A -> Prop) (l : list A) :
  (forall x y, R x y -> R' x y) -> StronglySorted R l -> StronglySorted R' l.
Proof.
  intros Himp. induction 1 as [|a l Hs IH Hall]; constructor; [assumption|].
  eapply Forall_impl; [|exact Hall]. intros y. apply Himp.
Qed.

Lemma sort_descending (series : list (string * Z)) :
  StronglySorted (fun a b => snd b <= snd a) (MeasureSort.sort series).
Proof.
  eapply StronglySorted_weaken;
    [|apply MeasureSort.StronglySorted_sort, MeasureDesc_trans].
  intros x y. unfold is_true, MeasureDesc.leb. now rewrite Z.leb_le.
Qed.

Lemma nlargest_length (n : Z) (series : list (string * Z)) :
  0 <= n ->
  Z.of_nat (List.length (nlargest n series)) = Z.min n (Z.of_nat (List.length series)).
Proof.
  intros Hn. unfold nlargest. destruct (n <=? 0) eqn:E.
  - apply Z.leb_le in E. simpl. lia.
  - rewrite length_firstn, Nat2Z.inj_min, Z2Nat.id by assumption.
    rewrite <- (Permutation_length (MeasureSort.Permuted_sort series)).
    reflexivity.
Qed.

Lemma nlargest_descending (n : Z) (series : list (string * Z)) :
  StronglySorted (fun a b => snd b <= snd a) (nlargest n series).
Proof.
  unfold nlargest. destruct (n <=? 0).
  - constructor.
  - apply StronglySorted_firstn, sort_descending.
Qed.

Lemma nlargest_incl (n : Z) (series : list (string * Z)) :
  incl (nlargest n series) series.
Proof.
  unfold nlargest. intros x Hx. destruct (n <=? 0).
  - contradiction.
  - apply In_firstn in Hx.
    eapply Permutation_in; [|exact Hx].
    apply Permutation_sym, MeasureSort.Permuted_sort.
Qed.

Lemma nlargest_all (n : Z) (series : list (string * Z)) :
  Z.of_nat (List.length series) <= n -> Permutation series (nlargest n series).
Proof.
  intros Hlen. unfold nlargest. destruct (n <=? 0) eqn:E.
  - apply Z.leb_le in E. destruct series; [constructor | simpl in Hlen; lia].
  - rewrite firstn_all2.
    + apply MeasureSort.Permuted_sort.
    + rewrite <- (Permutation_length (MeasureSort.Permuted_sort series)). lia.
Qed.

Lemma StronglySorted_app_rel {A : Type} (R : A -> A -> Prop) (l1 l2 : list A) :
  StronglySorted R (l1 ++ l2) -> forall x y, In x l1 -> In y l2 -> R x y.
Proof.
  induction l1 as [|a l1 IH]; simpl; intros Hs x y Hx Hy; [contradiction|].
  inversion Hs as [|? ? Hrest Hall]; subst.
  destruct Hx as [-> | Hx].
  - rewrite Forall_forall in Hall. apply Hall, in_or_app. now right.
  - now apply IH.
Qed.

(** The entries that [nlargest] leaves out are not larger than the ones it
    returns. *)
Lemma nlargest_dominates (n : Z) (series : list (string * Z)) g o :
  In g series -> ~ In g (nlargest n series) -> In o (nlargest n series) ->
  snd g <= snd o.
Proof.
  unfold nlargest. destruct (n <=? 0); intros Hg Hout Ho; [contradiction|].
  apply (Permutation_in _ (MeasureSort.Permuted_sort series)) in Hg.
  rewrite <- (firstn_skipn (Z.to_nat n) (MeasureSort.sort series)) in Hg.
  apply in_app_or in Hg. destruct Hg as [Hg | Hg]; [contradiction|].
  pose proof (sort_descending series) as Hs.
  rewrite <- (firstn_skipn (Z.to_nat n) (MeasureSort.sort series)) in Hs.
  exact (StronglySorted_app_rel _ _ _ Hs o g Ho Hg).
Qed.

Lemma filter_none {A : Type} (f : A -> bool) (l : list A) :
  (forall x, In x l -> f x = false) -> filter f l = [].
Proof.
  induction l as [|a l IH]; simpl; intros Hf; [reflexivity|].
  rewrite (Hf a (or_introl eq_refl)). apply IH. intros x Hx. apply Hf. now right.
Qed.

(** ** The claims on the filter engine and the aggregation views *)

(** C1: the filtered view keeps the header, is included in the loaded
    dataset, and holds exactly the records whose Region, Category and
    Segment are members of their selections and whose Order Date lies in
    the inclusive interval from the start date to the end date. *)
Theorem filtered_view_membership (frame : DataFrame)
  (region category segment : list string) (start_date end_date : Z) :
  let view := apply_filters frame region category segment start_date end_date in
  columns view = columns frame /\
  incl (rows view) (rows frame) /\
  forall r, In r (rows view) <->
    (In r (rows frame) /\
     In (Region r) region /\ In (Category r) category /\
     In (Segment r) segment /\ start_date <= Order_Date r <= end_date).
Proof.
  simpl. split; [reflexivity|]. split.
  - apply incl_filter.
  - intros r. rewrite filter_In, filter_mask_true. reflexivity.
Qed.

(** C5: when the region, the category or the segment selection is empty,
    the filtered view has no rows, whatever the other selections and the
    dates are. *)
Theorem empty_selection_empty_view (frame : DataFrame)
  (region category segment : list string) (start_date end_date : Z) :
  region = [] \/ category = [] \/ segment = [] ->
  rows (apply_filters frame region category segment start_date end_date) = [].
Proof.
  intros Hempty. simpl. apply filter_none. intros r _.
  destruct (filter_mask region category segment start_date end_date r) eqn:E;
    [|reflexivity].
  apply filter_mask_true in E. destruct E as (Hr & Hc & Hs & _).
  destruct Hempty as [-> | [-> | ->]]; contradiction.
Qed.

Lemma empty_selection_empty_view_witness :
  rows (apply_filters sample_df ["West"; "East"] [] ["Consumer"] 20240101 20241231)
  = [].
Proof.
  apply (empty_selection_empty_view sample_df ["West"; "East"] [] ["Consumer"]
           20240101 20241231).
  right. left. reflexivity.
Defined.

(** C2: for a non-negative N, the top-N aggregation returns exactly
    min(N, number of distinct groups) groups, hence never more than N; the
    groups are in descending order of the aggregated measure, each is a
    group of the view and no group left out has a larger sum; when N is at
    least the number of distinct groups all groups are returned. *)
Theorem top_n_groups (key : Row -> string) (measure : Row -> Z) (n : Z)
  (view : list Row) :
  0 <= n ->
  let out := top_n_by key measure n view in
  Z.of_nat (List.length out) = Z.min n (Z.of_nat (distinct_groups key view)) /\
  Z.of_nat (List.length out) <= n /\
  StronglySorted (fun a b => snd b <= snd a) out /\
  incl out (groupby_sum key measure view) /\
  (forall g o, In g (groupby_sum key measure view) -> ~ In g out -> In o out ->
               snd g <= snd o) /\
  (Z.of_nat (distinct_groups key view) <= n ->
   Permutation (groupby_sum key measure view) out).
Proof.
  intros Hn out. subst out. unfold top_n_by.
  pose proof (nlargest_length n (groupby_sum key measure view) Hn) as Hlen.
  unfold groupby_sum in Hlen at 2. rewrite groupby_agg_length in Hlen.
  split; [exact Hlen|]. split; [lia|]. split; [apply nlargest_descending|].
  split; [apply nlargest_incl|]. split; [apply nlargest_dominates|].
  intros Hall. apply nlargest_all.
  unfold groupby_sum. rewrite groupby_agg_length. exact Hall.
Qed.

Lemma top_n_groups_witness :
  0 <= 5 /\
  Z.of_nat (List.length (top_n_by Product_Name Sales 5 sample_rows)) = 3 /\
  top_n_by Product_Name Sales 5 sample_rows =
    [("Cisco IP Phone", 9575200); ("Bush Somerset Bookcase", 2619600);
     ("Avery Binder", 146200)].
Proof.
  split; [lia|].
  destruct (top_n_groups Product_Name Sales 5 sample_rows) as (Hlen & _);
    [lia|].
  split.
  - rewrite Hlen. reflexivity.
  - reflexivity.
Defined.

(** ** The loaded dataset and the frame objects of a run *)

Lemma preserves_bind {A B : Type} (P : Globals -> Prop) (m : M A) (k : A -> M B) :
  preserves P m -> (forall a, preserves P (k a)) -> preserves P (bind m k).
Proof.
  intros Hm Hk s Hs. unfold bind. specialize (Hm s Hs).
  destruct (m s) as [s' [a|e]]; simpl in *.
  - now apply Hk.
  - exact Hm.
Qed.

Lemma preserves_try_except (P : Globals -> Prop) body handler :
  preserves P body -> (forall e, preserves P (handler e)) ->
  preserves P (try_except body handler).
Proof.
  intros Hb Hh s Hs. unfold try_except. specialize (Hb s Hs).
  destruct (body s) as [s' [[]|e]]; simpl in *.
  - exact Hb.
  - now apply Hh.
Qed.

Lemma preserves_for_each {A : Type} (P : Globals -> Prop) (xs : list A) body :
  (forall x, preserves P (body x)) -> preserves P (for_each xs body).
Proof.
  intros Hbody. induction xs as [|x rest IH]; simpl.
  - intros s Hs. exact Hs.
  - apply preserves_bind; [apply Hbody | intros _; exact IH].
Qed.

Lemma preserves_ret {A : Type} (P : Globals -> Prop) (a : A) : preserves P (ret a).
Proof. intros s Hs. exact Hs. Qed.

Lemma preserves_raise {A : Type} (P : Globals -> Prop) (e : exn) :
  preserves P (@raise A e).
Proof. intros s Hs. exact Hs. Qed.

Lemma preserves_lift {A : Type} (P : Globals -> Prop) (r : result A) :
  preserves P (lift r).
Proof. intros s Hs. exact Hs. Qed.

Lemma preserves_load {A : Type} (P : Globals -> Prop) name
  (var : Globals -> option A) : preserves P (load name var).
Proof. intros s Hs. unfold load. now destruct (var s). Qed.

Lemma preserves_load_df (P : Globals -> Prop) : preserves P load_df.
Proof. intros s Hs. exact Hs. Qed.

Lemma preserves_frame_at (P : Globals -> Prop) a : preserves P (frame_at a).
Proof. intros s Hs. exact Hs. Qed.

Lemma preserves_row_getitem {A : Type} (P : Globals -> Prop) header name (cell : A) :
  preserves P (row_getitem header name cell).
Proof. intros s Hs. unfold row_getitem. now destruct (existsb _ header). Qed.

Lemma preserves_frame_getitem (P : Globals -> Prop) name frame :
  preserves P (frame_getitem name frame).
Proof. intros s Hs. unfold frame_getitem. now destruct (has_column name frame). Qed.

Lemma preserves_require_column (P : Globals -> Prop) name frame :
  preserves P (require_column name frame).
Proof. intros s Hs. unfold require_column. now destruct (has_column name frame). Qed.

Lemma preserves_require_columns (P : Globals -> Prop) names frame :
  preserves P (require_columns names frame).
Proof. intros s Hs. unfold require_columns. now destruct (filter _ names). Qed.

Lemma preserves_px_column (P : Globals -> Prop) argument name frame :
  preserves P (px_column argument name frame).
Proof. intros s Hs. unfold px_column. now destruct (has_column name frame). Qed.

Lemma preserves_date_input (P : Globals -> Prop) value :
  preserves P (date_input value).
Proof. intros s Hs. now destruct value. Qed.

Lemma preserves_method_format (P : Globals -> Prop) w v bonus :
  preserves P (method_format w v bonus).
Proof. intros s Hs. now destruct v. Qed.

Create HintDb frame.
#[local] Hint Resolve preserves_ret preserves_raise preserves_lift preserves_load
  preserves_load_df preserves_frame_at preserves_row_getitem
  preserves_frame_getitem preserves_require_column preserves_require_columns
  preserves_px_column preserves_date_input preserves_method_format : frame.

(** Walks a block statement by statement; a step that writes only globals
    the property does not read keeps it by computation. *)
Ltac frame_step :=
  match goal with
  | |- preserves _ (bind _ _) => apply preserves_bind; [|intros ?]
  | |- preserves _ (try_except _ _) => apply preserves_try_except; [|intros ?]
  | |- preserves _ (for_each _ _) => apply preserves_for_each; intros ?
  | |- preserves _ (if ?b then _ else _) => destruct b
  | |- preserves _ (match ?x with _ => _ end) => destruct x
  | |- preserves _ _ => solve [auto with frame]
  | |- preserves _ _ => solve [let s := fresh in let H := fresh in
                               intros s H; exact H]
  end.

Ltac frame := cbv zeta; repeat frame_step.

Lemma intact_new_frame data frame :
  preserves (dataset_intact data) (new_frame frame).
Proof.
  intros [heap next d fdf srdf msg mob em ui sms mail].
  unfold dataset_intact, new_frame. cbn.
  intros (Hdf & Hheap & Hnext & Hview & Hrep).
  destruct next; [lia|]. repeat split; try assumption; lia.
Qed.

(** Line 41 binds [filtered_df] to a new object, not to the one [df] names. *)
Lemma intact_apply_global_filters data c :
  preserves (dataset_intact data) (apply_global_filters c).
Proof.
  intros [heap next d fdf srdf msg mob em ui sms mail].
  unfold dataset_intact, apply_global_filters, read_df, load_df, frame_at,
    new_frame, store_filtered_df, bind. cbn.
  intros (Hdf & Hheap & Hnext & Hview & Hrep).
  destruct next; [lia|]. repeat split; try assumption; try lia. discriminate.
Qed.

(** Line 230 binds [sales_rep_df] to a new object as well. *)
Lemma intact_apply_sales_rep_filter data c :
  preserves (dataset_intact data) (apply_sales_rep_filter c).
Proof.
  intros [heap next d fdf srdf msg mob em ui sms mail] Hs.
  pose proof Hs as (Hdf & Hheap & Hnext & Hview & Hrep). cbn in *.
  unfold apply_sales_rep_filter, read_filtered_df, load, frame_at,
    frame_getitem, new_frame, store_sales_rep_df, bind, ret, raise. cbn.
  destruct fdf as [a|]; [|exact Hs]. cbn.
  destruct (has_column "SalesRep" (heap a)); [|exact Hs].
  unfold dataset_intact. cbn.
  destruct next; [lia|]. repeat split; try assumption; try lia. discriminate.
Qed.

#[local] Hint Resolve intact_new_frame intact_apply_global_filters
  intact_apply_sales_rep_filter : frame.

Lemma intact_route data w c : preserves (dataset_intact data) (route w c).
Proof.
  unfold route, page_overview, page_sales, page_profit, page_geo,
    page_sales_rep, page_notifications, sms_loop, email_loop, sms_row,
    email_row, multiselect, read_df, read_filtered_df, read_sales_rep_df.
  destruct (page c); frame.
Qed.

Lemma intact_script data w c : preserves (dataset_intact data) (script w c).
Proof.
  unfold script. apply preserves_bind.
  { unfold sidebar, multiselect, read_df. frame. }
  intros _. apply preserves_bind; [apply intact_apply_global_filters|].
  intros _. apply preserves_bind; [apply intact_route|].
  intros _. frame.
Qed.

(** An assignment into the object that [df] names would show: the model
    does tell a new frame from a frame changed in place. *)
Lemma frame_assign_changes_dataset data update s :
  dataset_intact data s -> update data <> data ->
  ~ dataset_intact data (fst (frame_assign (g_df s) update s)).
Proof.
  intros (Hdf & Hheap & _) Hupd (_ & Hheap' & _).
  simpl in Hheap'. rewrite Hdf in Hheap'. simpl in Hheap'. congruence.
Qed.

(** So would an assignment through a second name of the same object. *)
Lemma frame_assign_through_alias data update s :
  dataset_intact data s -> update data <> data ->
  g_heap (fst ((store_filtered_df (g_df s) ;;
                a <- load "filtered_df" g_filtered_df ;;
                frame_assign a update) s)) (g_df s) <> data.
Proof.
  intros (Hdf & Hheap & _) Hupd. unfold bind, store_filtered_df, load. simpl.
  rewrite Hdf. simpl. congruence.
Qed.

(** C9: at the end of a run, whatever the controls, the page and the
    answers of the services are and whether the run ends normally or in an
    exception, [df] names the object it named at the start, that object is
    the loaded dataset unchanged, and the filtered view and the sales-rep
    view are other objects: no step of the script assigns into the loaded
    frame or gives it a second name. *)
Theorem run_keeps_dataset (w : World) (data : DataFrame) (c : Controls) :
  g_df (fst (run w data c)) = g_df (init_state data) /\
  g_heap (fst (run w data c)) (g_df (fst (run w data c))) = data /\
  g_filtered_df (fst (run w data c)) <> Some (g_df (fst (run w data c))) /\
  g_sales_rep_df (fst (run w data c)) <> Some (g_df (fst (run w data c))).
Proof.
  assert (Hinit : dataset_intact data (init_state data)).
  { unfold dataset_intact, init_state. simpl.
    repeat split; try lia; discriminate. }
  destruct (intact_script data w c (init_state data) Hinit)
    as (Hdf & Hheap & _ & Hview & Hrep).
  unfold run. rewrite Hdf. simpl. auto.
Qed.

(** ** Running the script *)

Lemma bind_ok {A B : Type} (m : M A) (k : A -> M B) (s s1 : Globals) (a : A) :
  m s = (s1, Ok a) -> bind m k s = k a s1.
Proof. intros H. unfold bind. rewrite H. reflexivity. Qed.

Lemma bind_raise {A B : Type} (m : M A) (k : A -> M B) (s s1 : Globals) (e : exn) :
  m s = (s1, Raise e) -> bind m k s = (s1, Raise e).
Proof. intros H. unfold bind. rewrite H. reflexivity. Qed.

Lemma bind_assoc {A B C : Type} (m : M A) (f : A -> M B) (k : B -> M C)
  (s : Globals) :
  bind (bind m f) k s = bind m (fun a => bind (f a) k) s.
Proof. unfold bind. destruct (m s) as [s1 [a|e]]; reflexivity. Qed.

Lemma frame_getitem_ok name frame s :
  has_column name frame = true -> frame_getitem name frame s = (s, Ok tt).
Proof. intros H. unfold frame_getitem. rewrite H. reflexivity. Qed.

Lemma require_column_ok name frame s :
  has_column name frame = true -> require_column name frame s = (s, Ok tt).
Proof. intros H. unfold require_column. rewrite H. reflexivity. Qed.

Lemma require_columns_ok names frame s :
  has_columns names frame = true -> require_columns names frame s = (s, Ok tt).
Proof.
  intros H. unfold require_columns.
  rewrite (filter_none (fun n => negb (has_column n frame)) names); [reflexivity|].
  intros n Hn. unfold has_columns in H. rewrite forallb_forall in H.
  rewrite (H n Hn). reflexivity.
Qed.

Lemma px_column_ok argument name frame s :
  has_column name frame = true -> px_column argument name frame s = (s, Ok tt).
Proof. intros H. unfold px_column. rewrite H. reflexivity. Qed.

Lemma date_input_min_ok (view : list Row) s :
  view <> [] -> date_input (Series_min (map Order_Date view)) s = (s, Ok tt).
Proof. intros H. destruct view; [contradiction | reflexivity]. Qed.

Lemma date_input_max_ok (view : list Row) s :
  view <> [] -> date_input (Series_max (map Order_Date view)) s = (s, Ok tt).
Proof. intros H. destruct view; [contradiction | reflexivity]. Qed.

Lemma has_columns_In names frame name :
  has_columns names frame = true -> In name names -> has_column name frame = true.
Proof. unfold has_columns. rewrite forallb_forall. auto. Qed.

Lemma has_columns_incl names names' frame :
  has_columns names' frame = true -> incl names names' ->
  has_columns names frame = true.
Proof.
  unfold has_columns. rewrite !forallb_forall. auto.
Qed.

(** One statement of a block run on a known state.  A column test is
    settled by a hypothesis on the header; any other step is evaluated. *)
Ltac in_names := simpl; repeat (first [left; reflexivity | right]).

Ltac column_present :=
  match goal with
  | H : has_columns _ (mkDataFrame ?h _) = true
    |- has_column ?n (mkDataFrame ?h _) = true =>
      exact (has_columns_In _ (mkDataFrame h _) n H ltac:(in_names))
  | H : has_column ?n (mkDataFrame ?h _) = true
    |- has_column ?n (mkDataFrame ?h _) = true => exact H
  end.

Ltac columns_present :=
  match goal with
  | H : has_columns _ (mkDataFrame ?h _) = true
    |- has_columns ?ns (mkDataFrame ?h _) = true =>
      apply (has_columns_incl ns _ (mkDataFrame h _) H);
      let x := fresh in let Hx := fresh in
      intros x Hx; simpl in Hx; simpl; intuition
  end.

Ltac eval_step t :=
  eval cbv beta iota zeta delta
    [bind ret raise lift load load_df frame_at new_frame store_filtered_df
     store_sales_rep_df store_message st
     read_df read_filtered_df read_sales_rep_df apply_global_filters
     apply_filters getitem_mask init_state
     g_heap g_next g_df g_filtered_df g_sales_rep_df g_message g_Mobile
     g_email g_ui g_sms_out g_mail_out Nat.eqb rows columns] in t.

Ltac exec_step :=
  cbv beta zeta;
  lazymatch goal with
  | |- context [bind (bind ?m ?f) ?k ?s] => rewrite (bind_assoc m f k s)
  | |- context [bind (frame_getitem ?n ?f) ?k ?s] =>
      rewrite (bind_ok (frame_getitem n f) k s s tt
                 (frame_getitem_ok n f s ltac:(column_present)))
  | |- context [bind (require_column ?n ?f) ?k ?s] =>
      rewrite (bind_ok (require_column n f) k s s tt
                 (require_column_ok n f s ltac:(column_present)))
  | |- context [bind (require_columns ?ns ?f) ?k ?s] =>
      rewrite (bind_ok (require_columns ns f) k s s tt
                 (require_columns_ok ns f s ltac:(columns_present)))
  | |- context [bind (px_column ?a ?n ?f) ?k ?s] =>
      rewrite (bind_ok (px_column a n f) k s s tt
                 (px_column_ok a n f s ltac:(column_present)))
  | |- context [bind (date_input (Series_min (map Order_Date ?v))) ?k ?s] =>
      rewrite (bind_ok _ k s s tt (date_input_min_ok v s ltac:(assumption)))
  | |- context [bind (date_input (Series_max (map Order_Date ?v))) ?k ?s] =>
      rewrite (bind_ok _ k s s tt (date_input_max_ok v s ltac:(assumption)))
  | |- context [bind ?m ?k ?s] =>
      let r := eval_step (m s) in
      lazymatch r with
      | (?s1, Ok ?a) => rewrite (bind_ok m k s s1 a eq_refl)
      | (?s1, Raise ?e) => rewrite (bind_raise m k s s1 e eq_refl)
      end
  end.

Ltac exec :=
  unfold run, script, sidebar, multiselect, apply_sales_rep_filter;
  repeat exec_step; cbv beta zeta.

(** The last statement of a block. *)
Ltac exec_last :=
  lazymatch goal with
  | |- context [st ?c ?s] =>
      let r := eval_step (st c s) in change (st c s) with r
  end.

Lemma frame_getitem_missing name frame s :
  has_column name frame = false ->
  frame_getitem name frame s = (s, Raise (KeyError name)).
Proof. intros H. unfold frame_getitem. rewrite H. reflexivity. Qed.

(** The statement at which a run stops. *)
Ltac raise_here :=
  lazymatch goal with
  | |- context [bind (frame_getitem ?n ?f) ?k ?s] =>
      rewrite (bind_raise (frame_getitem n f) k s s (KeyError n)
                 (frame_getitem_missing n f s ltac:(eassumption)))
  | |- context [bind ?m ?k ?s] =>
      let r := eval cbv in (snd (m s)) in
      lazymatch r with
      | Raise ?e => rewrite (bind_raise m k s s e eq_refl)
      end
  end.

(** C3, as the code has it: on the Overview page of a dataset that has
    transactions and the columns the script reads, when the filtered view
    is empty the run ends normally (the mean raises no division error), the
    Average Discount metric is the percent rendering of NaN, and no warning
    or error is displayed. *)
Theorem average_discount_empty_view (w : World) (data : DataFrame) (c : Controls) :
  page c = Overview ->
  rows data <> [] ->
  has_columns required_columns data = true ->
  rows (apply_filters data (region c) (category c) (segment c)
          (start_date c) (end_date c)) = [] ->
  snd (run w data c) = Ok tt /\
  In (st_metric "Average Discount" (fmt_percent NaN)) (g_ui (fst (run w data c))) /\
  existsb is_alert (g_ui (fst (run w data c))) = false.
Proof.
  intros Hpage Hrows Hcols Hempty. destruct data as [header view].
  cbn [rows apply_filters getitem_mask] in Hrows, Hempty.
  unfold run, script, route. rewrite Hpage. unfold page_overview.
  exec. rewrite Hempty. exec_last. cbn [fst snd g_ui].
  split; [reflexivity|]. split.
  - simpl. tauto.
  - reflexivity.
Qed.

Lemma average_discount_empty_view_witness :
  page (controls_no_region Overview) = Overview /\
  rows sample_df <> [] /\
  In (st_metric "Average Discount" (fmt_percent NaN))
    (g_ui (fst (run world_ok sample_df (controls_no_region Overview)))).
Proof.
  split; [reflexivity|]. split; [discriminate|].
  destruct (average_discount_empty_view world_ok sample_df
              (controls_no_region Overview) eq_refl) as (_ & Hnan & _).
  - discriminate.
  - reflexivity.
  - reflexivity.
  - exact Hnan.
Defined.

(** C3 as stated fails: with the region selector emptied the filtered view
    of the sample dataset is empty, and the Overview page reports no
    explicit no-data state: it shows no alert and displays NaN as the
    Average Discount. *)
Lemma average_discount_no_data_counterexample :
  rows (apply_filters sample_df [] ["Furniture"; "Technology"; "Office Supplies"]
          ["Consumer"; "Corporate"; "Home Office"] 20240101 20241231) = [] /\
  snd (run world_ok sample_df (controls_no_region Overview)) = Ok tt /\
  existsb is_alert
    (g_ui (fst (run world_ok sample_df (controls_no_region Overview)))) = false /\
  In (st_metric "Average Discount" (fmt_percent NaN))
    (g_ui (fst (run world_ok sample_df (controls_no_region Overview)))) /\
  ~ no_data_reported
      (g_ui (fst (run world_ok sample_df (controls_no_region Overview)))).
Proof.
  split; [reflexivity|]. split; [reflexivity|]. split; [reflexivity|]. split.
  - vm_compute. tauto.
  - intros [Halert _]. vm_compute in Halert. discriminate.
Qed.

(** A dataset without transactions does not get past the sidebar: the
    run ends in an exception (a missing column, or the date picker given
    NaT) before the filter, with nothing displayed. *)
Lemma empty_dataset_stops_in_sidebar w data c :
  rows data = [] ->
  exists e, snd (run w data c) = Raise e /\
            g_ui (fst (run w data c)) = [] /\
            g_filtered_df (fst (run w data c)) = None.
Proof.
  intros Hrows. destruct data as [header view]. cbn [rows] in Hrows. subst view.
  destruct (has_column "Region" (mkDataFrame header [])) eqn:H1;
    [|exec; raise_here; eexists; repeat split; reflexivity].
  destruct (has_column "Category" (mkDataFrame header [])) eqn:H2;
    [|exec; raise_here; eexists; repeat split; reflexivity].
  destruct (has_column "Segment" (mkDataFrame header [])) eqn:H3;
    [|exec; raise_here; eexists; repeat split; reflexivity].
  destruct (has_column "Order Date" (mkDataFrame header [])) eqn:H4;
    exec; raise_here; eexists; repeat split; reflexivity.
Qed.

(** The filtered view of a run: once the sidebar is through, [filtered_df]
    names a frame that holds the filter applied to the loaded dataset, and
    nothing rebinds the name or changes the frame afterwards. *)
Lemma run_filtered_df w data c :
  rows data <> [] ->
  has_columns sidebar_columns data = true ->
  exists a,
    g_filtered_df (fst (run w data c)) = Some a /\
    g_heap (fst (run w data c)) a =
    apply_filters data (region c) (category c) (segment c)
      (start_date c) (end_date c).
Proof.
  intros Hrows Hcols. destruct data as [header view]. cbn [rows] in Hrows.
  set (P := fun s : Globals =>
              g_filtered_df s = Some 1%nat /\
              g_heap s 1%nat =
                apply_filters (mkDataFrame header view) (region c) (category c)
                  (segment c) (start_date c) (end_date c) /\
              (2 <= g_next s)%nat).
  assert (Hnew : forall frame, preserves P (new_frame frame)).
  { intros frame [heap next d fdf srdf msg mob em ui sms mail].
    unfold P, new_frame. cbn. intros (H1 & H2 & H3).
    destruct next as [|[|next]]; try lia. repeat split; try assumption; lia. }
  assert (Hrep : preserves P (apply_sales_rep_filter c)).
  { unfold apply_sales_rep_filter, read_filtered_df.
    repeat (apply preserves_bind; [|intros ?]); try apply Hnew; frame. }
  assert (Hroute : preserves P
            (route w c ;; st (st_markdown "---") ;;
             st (st_markdown "Built with ❤️ using Streamlit and Plotly."))).
  { apply preserves_bind; [|intros _; frame].
    unfold route, page_overview, page_sales, page_profit, page_geo,
      page_sales_rep, page_notifications, sms_loop, email_loop, sms_row,
      email_row, multiselect, read_df, read_filtered_df, read_sales_rep_df.
    destruct (page c); frame; apply Hrep. }
  exec.
  match goal with
  | |- context [bind ?m ?k ?s] =>
      destruct (Hroute s) as (H1 & H2 & _);
        [unfold P; repeat split; first [reflexivity | cbn; lia]|]
  end.
  exists 1%nat. split; assumption.
Qed.

(** C8: on the Sales Rep page of a dataset that has transactions and the
    columns the sidebar reads, when the dataset has the SalesRep column
    [sales_rep_df] names the filtered view restricted to the rows whose
    SalesRep is a member of the sales-rep selection, hence included in the
    filtered view; when the column is absent the run ends normally, the
    page shows the warning, no sales-rep view is bound and no metric or
    chart is displayed. *)
Theorem sales_rep_page_view (w : World) (data : DataFrame) (c : Controls) :
  page c = Sales_Rep_Analysis ->
  rows data <> [] ->
  has_columns sidebar_columns data = true ->
  let filtered := apply_filters data (region c) (category c) (segment c)
                    (start_date c) (end_date c) in
  let final := fst (run w data c) in
  (has_column "SalesRep" data = true ->
   exists a,
     g_sales_rep_df final = Some a /\
     g_heap final a
       = getitem_mask filtered (fun r => isin (sales_reps c) (SalesRep r)) /\
     incl (rows (g_heap final a)) (rows filtered) /\
     forall r, In r (rows (g_heap final a)) <->
               In r (rows filtered) /\ In (SalesRep r) (sales_reps c)) /\
  (has_column "SalesRep" data = false ->
   snd (run w data c) = Ok tt /\
   g_sales_rep_df final = None /\
   In (st_warning "No 'Sales Rep' column found in the dataset.") (g_ui final) /\
   existsb is_aggregate (g_ui final) = false).
Proof.
  intros Hpage Hrows Hcols filtered final. subst final filtered.
  destruct data as [header view]. cbn [rows] in Hrows.
  split; intros Hcol.
  - set (view2 := getitem_mask
                    (apply_filters (mkDataFrame header view) (region c)
                       (category c) (segment c) (start_date c) (end_date c))
                    (fun r => isin (sales_reps c) (SalesRep r))).
    set (P := fun s : Globals =>
                g_sales_rep_df s = Some 2%nat /\ g_heap s 2%nat = view2).
    unfold run, script, route. rewrite Hpage. unfold page_sales_rep.
    exec. rewrite Hcol. cbv beta iota. exec.
    match goal with
    | |- context [bind ?m ?k ?s] =>
        assert (Hp : preserves P (bind m k))
          by (unfold read_sales_rep_df; frame);
        destruct (Hp s) as (H1 & H2); [split; reflexivity|]
    end.
    exists 2%nat. rewrite H1, H2. split; [reflexivity|]. split; [reflexivity|].
    split.
    + apply incl_filter.
    + intros r. unfold view2. simpl. rewrite filter_In, isin_In. reflexivity.
  - unfold run, script, route. rewrite Hpage. unfold page_sales_rep.
    exec. rewrite Hcol. cbv beta iota. exec. exec_last. cbn [fst snd g_ui g_sales_rep_df].
    split; [reflexivity|]. split; [reflexivity|]. split.
    + simpl. tauto.
    + reflexivity.
Qed.

Lemma sales_rep_page_view_witness :
  page (controls_west_south_aisha Sales_Rep_Analysis) = Sales_Rep_Analysis /\
  rows (apply_filters sample_df ["West"; "South"]
          ["Furniture"; "Technology"; "Office Supplies"]
          ["Consumer"; "Corporate"; "Home Office"] 20240101 20241231)
    = [row_west; row_south; row_west2] /\
  (exists a,
     g_sales_rep_df
       (fst (run world_ok sample_df (controls_west_south_aisha Sales_Rep_Analysis)))
     = Some a /\
     rows (g_heap
             (fst (run world_ok sample_df
                     (controls_west_south_aisha Sales_Rep_Analysis))) a)
     = [row_west; row_south]) /\
  snd (run world_ok (mkDataFrame header_without_SalesRep sample_rows)
         (controls_west_south_aisha Sales_Rep_Analysis)) = Ok tt.
Proof.
  split; [reflexivity|]. split; [reflexivity|]. split.
  - destruct (sales_rep_page_view world_ok sample_df
                (controls_west_south_aisha Sales_Rep_Analysis) eq_refl)
      as [Hyes _]; [discriminate | reflexivity |].
    destruct (Hyes eq_refl) as (a & Hbound & Hview & _).
    exists a. split; [exact Hbound|]. rewrite Hview. reflexivity.
  - destruct (sales_rep_page_view world_ok
                (mkDataFrame header_without_SalesRep sample_rows)
                (controls_west_south_aisha Sales_Rep_Analysis) eq_refl)
      as [_ Hno]; [discriminate | reflexivity |].
    exact (proj1 (Hno eq_refl)).
Defined.

(** When the Mobile column is missing the page shows the blocking error
    and the run ends without a request to either service. *)
Lemma mobile_column_missing_blocks w data c :
  page c = Send_Notifications ->
  rows data <> [] ->
  has_columns sidebar_columns data = true ->
  has_column "Mobile" data = false ->
  snd (run w data c) = Ok tt /\
  In (st_error "The dataset must contain 'Mobile' and 'email' columns to send notifications.")
    (g_ui (fst (run w data c))) /\
  g_sms_out (fst (run w data c)) = [] /\
  g_mail_out (fst (run w data c)) = [].
Proof.
  intros Hpage Hrows Hcols Hcol. destruct data as [header view].
  cbn [rows] in Hrows.
  unfold run, script, route. rewrite Hpage. unfold page_notifications.
  exec. rewrite Hcol. cbv beta iota delta [negb]. exec. exec_last.
  cbn [fst snd g_ui g_sms_out g_mail_out].
  split; [reflexivity|]. split; [simpl; tauto|]. split; reflexivity.
Qed.

(** ** Notification dispatcher *)

Ltac run_row :=
  cbv beta iota zeta delta
    [sms_row email_row try_except bind ret raise lift load st
     store_message store_Mobile store_email row_getitem method_format
     client_messages_create smtp_send fst snd
     g_heap g_next g_df g_filtered_df g_sales_rep_df g_message g_Mobile
     g_email g_ui g_sms_out g_mail_out].

Lemma reports_app (ui1 ui2 : list st_call) :
  reports (ui1 ++ ui2) = reports ui1 ++ reports ui2.
Proof.
  induction ui1 as [|c rest IH]; simpl; [reflexivity|].
  destruct c; simpl; rewrite ?IH; reflexivity.
Qed.

Lemma for_each_cons_ok {A : Type} (x : A) (rest : list A) (body : A -> M unit)
  (s s1 : Globals) :
  body x s = (s1, Ok tt) ->
  for_each (x :: rest) body s = for_each rest body s1.
Proof. intros Hx. simpl. unfold bind. rewrite Hx. reflexivity. Qed.

(** A row of the SMS loop whose send goes through: the response replaces
    the template in [message]. *)
Lemma sms_row_sent w header c row s template body response :
  existsb (String.eqb "Bonus") header = true ->
  existsb (String.eqb "Mobile") header = true ->
  g_message s = Some (PyStr template) ->
  str_format w template (Bonus row) = Ok body ->
  messages_create w (List.length (g_sms_out s))
    (mkSmsRequest body (twilio_phone_number c) (Mobile row)) = Ok response ->
  sms_row w header c row s =
  (mkGlobals (g_heap s) (g_next s) (g_df s) (g_filtered_df s) (g_sales_rep_df s)
     (Some (PyMessageInstance response)) (Some (Mobile row)) (g_email s)
     (g_ui s ++ [st_success ("SMS sent to " ++ Mobile row ++ " successfully!")])
     (g_sms_out s ++ [mkSmsRequest body (twilio_phone_number c) (Mobile row)])
     (g_mail_out s),
   Ok tt).
Proof.
  intros HB HM Hmsg Hfmt Hsend.
  destruct s as [heap next d fdf srdf msg mob em ui sms mail].
  cbn [g_message g_sms_out] in Hmsg, Hsend. subst msg. run_row.
  rewrite HB. run_row. rewrite HM. run_row.
  rewrite Hfmt. run_row. rewrite Hsend. reflexivity.
Qed.

(** A row of the SMS loop once [message] holds a response: formatting
    raises, nothing is sent, the row is reported as failed. *)
Lemma sms_row_rebound w header c row s response :
  existsb (String.eqb "Bonus") header = true ->
  existsb (String.eqb "Mobile") header = true ->
  g_message s = Some (PyMessageInstance response) ->
  sms_row w header c row s =
  (mkGlobals (g_heap s) (g_next s) (g_df s) (g_filtered_df s) (g_sales_rep_df s)
     (Some (PyMessageInstance response)) (Some (Mobile row)) (g_email s)
     (g_ui s ++ [sms_rebound_failure row]) (g_sms_out s) (g_mail_out s),
   Ok tt).
Proof.
  intros HB HM Hmsg.
  destruct s as [heap next d fdf srdf msg mob em ui sms mail].
  cbn [g_message] in Hmsg. subst msg. run_row.
  rewrite HB. run_row. rewrite HM. reflexivity.
Qed.

Lemma sms_rows_rebound w header c response (rest : list Row) : forall s,
  existsb (String.eqb "Bonus") header = true ->
  existsb (String.eqb "Mobile") header = true ->
  g_message s = Some (PyMessageInstance response) ->
  snd (for_each rest (sms_row w header c) s) = Ok tt /\
  g_message (fst (for_each rest (sms_row w header c) s))
    = Some (PyMessageInstance response) /\
  g_sms_out (fst (for_each rest (sms_row w header c) s)) = g_sms_out s /\
  g_ui (fst (for_each rest (sms_row w header c) s))
    = g_ui s ++ map sms_rebound_failure rest.
Proof.
  induction rest as [|row rest IH]; intros s HB HM Hmsg.
  - simpl. rewrite app_nil_r. auto.
  - rewrite (for_each_cons_ok _ _ _ _ _
               (sms_row_rebound w header c row s response HB HM Hmsg)).
    match goal with
    | |- context [for_each rest _ ?s1] =>
        destruct (IH s1 HB HM eq_refl) as (Hok & Hm & Hout & Hui)
    end.
    rewrite Hok, Hm, Hout, Hui. simpl. rewrite <- app_assoc. auto.
Qed.

(** C10: in the SMS loop, when a row's send succeeds while [message] still
    holds the user's template, [message] is rebound to the gateway's
    response; for every later row the formatting step no longer works on
    the template (it raises on the response object), so each later row is
    reported as failed and no further request reaches the gateway. *)
Theorem sms_template_rebound (w : World) (c : Controls) (header : list string)
  (row : Row) (rest : list Row) (s : Globals)
  (template body : string) (response : MessageInstance) :
  existsb (String.eqb "Bonus") header = true ->
  existsb (String.eqb "Mobile") header = true ->
  g_message s = Some (PyStr template) ->
  str_format w template (Bonus row) = Ok body ->
  messages_create w (List.length (g_sms_out s))
    (mkSmsRequest body (twilio_phone_number c) (Mobile row)) = Ok response ->
  let after_row := fst (sms_row w header c row s) in
  let final := fst (for_each rest (sms_row w header c) after_row) in
  g_message after_row = Some (PyMessageInstance response) /\
  g_message final = Some (PyMessageInstance response) /\
  snd (for_each (row :: rest) (sms_row w header c) s) = Ok tt /\
  fst (for_each (row :: rest) (sms_row w header c) s) = final /\
  g_sms_out final =
    g_sms_out s ++ [mkSmsRequest body (twilio_phone_number c) (Mobile row)] /\
  g_ui final =
    g_ui s ++ st_success ("SMS sent to " ++ Mobile row ++ " successfully!")
           :: map sms_rebound_failure rest.
Proof.
  intros HB HM Hmsg Hfmt Hsend after_row final. subst final after_row.
  rewrite (for_each_cons_ok _ _ _ _ _
             (sms_row_sent w header c row s template body response
                HB HM Hmsg Hfmt Hsend)).
  rewrite (sms_row_sent w header c row s template body response
             HB HM Hmsg Hfmt Hsend).
  cbn [fst snd].
  match goal with
  | |- context [for_each rest _ ?s1] =>
      destruct (sms_rows_rebound w header c response rest s1 HB HM eq_refl)
        as (Hok & Hm & Hout & Hui);
      destruct (for_each rest (sms_row w header c) s1) as [s2 r2] eqn:Eloop
  end.
  cbn [fst snd] in *. subst r2.
  rewrite Hm, Hout, Hui. cbn [g_message g_sms_out g_ui].
  rewrite <- app_assoc. simpl. auto 10.
Qed.

Lemma sms_template_rebound_witness :
  g_message sms_loop_entry
    = Some (PyStr (message_text (sample_controls Send_Notifications SMS))) /\
  reports
    (g_ui (fst (for_each [row_west; row_east; row_south]
                  (sms_row world_ok full_header
                     (sample_controls Send_Notifications SMS))
                  sms_loop_entry)))
    = [Sent; Failed; Failed] /\
  map sms_to
    (g_sms_out (fst (for_each [row_west; row_east; row_south]
                       (sms_row world_ok full_header
                          (sample_controls Send_Notifications SMS))
                       sms_loop_entry)))
    = ["+966500000001"].
Proof.
  split; [reflexivity|].
  destruct (sms_template_rebound world_ok
              (sample_controls Send_Notifications SMS) full_header
              row_west [row_east; row_south] sms_loop_entry
              (message_text (sample_controls Send_Notifications SMS))
              "Dear Customer, your bonus for this month is SAR 500. Thank you for your continued support!"
              (mkMessageInstance "SM0")
              eq_refl eq_refl eq_refl eq_refl eq_refl)
    as (_ & _ & _ & Hfinal & Hout & Hui).
  rewrite Hfinal, Hout, Hui. split; reflexivity.
Defined.

(** The email loop keeps [message] and never raises: every row is taken in
    turn and gets exactly one report; when the template formats for every
    row, one message per row goes to the server, in row order. *)
Lemma email_row_reported w header c row s template :
  existsb (String.eqb "Bonus") header = true ->
  existsb (String.eqb "email") header = true ->
  g_message s = Some (PyStr template) ->
  exists s1 r,
    email_row w header c row s = (s1, Ok tt) /\
    g_message s1 = Some (PyStr template) /\
    reports (g_ui s1) = reports (g_ui s) ++ [r] /\
    (forall body, str_format w template (Bonus row) = Ok body ->
       map mail_to (g_mail_out s1) = map mail_to (g_mail_out s) ++ [email row] /\
       (r = Sent <->
        smtp_session w (List.length (g_mail_out s))
          (mkEmailRequest (smtp_server c) (smtp_port c) (smtp_username c)
             (smtp_password c) (smtp_username c) (email row)
             "Your Bonus Information" body) = Ok tt)).
Proof.
  intros HB HE Hmsg.
  destruct s as [heap next d fdf srdf msg mob em ui sms mail].
  cbn [g_message] in Hmsg. subst msg. run_row.
  rewrite HB. run_row. rewrite HE. run_row.
  destruct (str_format w template (Bonus row)) as [body|e] eqn:Hfmt; run_row.
  - destruct (smtp_session w (List.length mail) _) as [[]|e] eqn:Hsend.
    + eexists _, Sent. split; [reflexivity|]. split; [reflexivity|].
      split; [rewrite reports_app; reflexivity|].
      intros body' Hb. injection Hb as <-. split.
      * rewrite map_app. reflexivity.
      * rewrite Hsend. tauto.
    + eexists _, Failed. split; [reflexivity|]. split; [reflexivity|].
      split; [rewrite reports_app; reflexivity|].
      intros body' Hb. injection Hb as <-. split.
      * rewrite map_app. reflexivity.
      * rewrite Hsend. split; discriminate.
  - eexists _, Failed. split; [reflexivity|]. split; [reflexivity|].
    split; [rewrite reports_app; reflexivity|].
    intros body' Hb. discriminate.
Qed.

Lemma email_loop_attempts_every_row w header c template (view : list Row) :
  forall s,
  existsb (String.eqb "Bonus") header = true ->
  existsb (String.eqb "email") header = true ->
  g_message s = Some (PyStr template) ->
  snd (for_each view (email_row w header c) s) = Ok tt /\
  List.length (reports (g_ui (fst (for_each view (email_row w header c) s))))
    = (List.length (reports (g_ui s)) + List.length view)%nat /\
  ((forall row, In row view ->
      exists body, str_format w template (Bonus row) = Ok body) ->
   map mail_to (g_mail_out (fst (for_each view (email_row w header c) s)))
     = map mail_to (g_mail_out s) ++ map email view).
Proof.
  induction view as [|row rest IH]; intros s HB HE Hmsg.
  - simpl. rewrite app_nil_r. split; [reflexivity|]. split; [lia | reflexivity].
  - destruct (email_row_reported w header c row s template HB HE Hmsg)
      as (s1 & r & Hrow & Hmsg1 & Hrep & Hsent).
    rewrite (for_each_cons_ok _ _ _ _ _ Hrow).
    destruct (IH s1 HB HE Hmsg1) as (Hok & Hlen & Hall).
    split; [exact Hok|]. split.
    + rewrite Hlen, Hrep, length_app. simpl. lia.
    + intros Hfmt. rewrite Hall by (intros x Hx; apply Hfmt; now right).
      destruct (Hfmt row (or_introl eq_refl)) as [body Hbody].
      rewrite (proj1 (Hsent body Hbody)), <- app_assoc. reflexivity.
Qed.

(** C4 at a failing input: two rows, the SMS channel and a gateway that
    accepts every request.  The loop reports the first row as sent and the
    second as failed, and only the first row's request reached the gateway:
    no send was attempted for the second row.  On the email channel the
    same input gives two sends and two success reports. *)
Theorem sms_loop_second_row_not_attempted :
  snd (run world_ok two_rows_df (sample_controls Send_Notifications SMS)) = Ok tt /\
  reports (g_ui (fst (run world_ok two_rows_df
                        (sample_controls Send_Notifications SMS))))
    = [Sent; Failed] /\
  map sms_to (g_sms_out (fst (run world_ok two_rows_df
                                (sample_controls Send_Notifications SMS))))
    = ["+966500000001"] /\
  reports (g_ui (fst (run world_ok two_rows_df
                        (sample_controls Send_Notifications Email))))
    = [Sent; Sent] /\
  map mail_to (g_mail_out (fst (run world_ok two_rows_df
                                  (sample_controls Send_Notifications Email))))
    = ["aisha@example.com"; "bilal@example.com"].
Proof. repeat split; vm_compute; reflexivity. Qed.

(** C6 at a failing input: the dataset has the Mobile column but no email
    column and the channel is Email.  No blocking error is displayed: the
    page goes on to the loop, where reading the cell raises and the handler
    itself fails on the unbound name [email], which ends the run. *)
Theorem email_column_missing_not_blocked :
  has_column "Mobile" (mkDataFrame header_without_email [row_west; row_east])
    = true /\
  has_column "email" (mkDataFrame header_without_email [row_west; row_east])
    = false /\
  snd (run world_ok (mkDataFrame header_without_email [row_west; row_east])
         (sample_controls Send_Notifications Email))
    = Raise (NameError "email") /\
  existsb is_alert
    (g_ui (fst (run world_ok (mkDataFrame header_without_email [row_west; row_east])
                  (sample_controls Send_Notifications Email))))
    = false /\
  g_mail_out
    (fst (run world_ok (mkDataFrame header_without_email [row_west; row_east])
            (sample_controls Send_Notifications Email)))
    = [].
Proof. repeat split; vm_compute; reflexivity. Qed.

(** ** Scenarios *)

(** Region West, every category and segment, 1 February to 31 March: the
    view holds the two West rows and the Total Sales KPI is their sum. *)
Example scenario_west_february_march :
  rows (apply_filters sample_df ["West"]
          ["Furniture"; "Technology"; "Office Supplies"]
          ["Consumer"; "Corporate"; "Home Office"] 20240201 20240331)
    = [row_west; row_west2] /\
  Series_sum (map Sales [row_west; row_west2]) = 3119600.
Proof. split; reflexivity. Qed.

(** Two rows on the email channel, the server refusing the second message:
    both messages go out, one success and one failure are reported and the
    run ends normally. *)
Example scenario_email_second_refused :
  snd (run world_second_refused two_rows_df
         (sample_controls Send_Notifications Email)) = Ok tt /\
  reports (g_ui (fst (run world_second_refused two_rows_df
                        (sample_controls Send_Notifications Email))))
    = [Sent; Failed] /\
  map mail_to (g_mail_out (fst (run world_second_refused two_rows_df
                                  (sample_controls Send_Notifications Email))))
    = ["aisha@example.com"; "bilal@example.com"].
Proof. repeat split; vm_compute; reflexivity. Qed.

(** The same on the SMS channel: the reports are the same, but the second
    request never reaches the gateway. *)
Example scenario_sms_second_refused :
  snd (run world_second_refused two_rows_df
         (sample_controls Send_Notifications SMS)) = Ok tt /\
  reports (g_ui (fst (run world_second_refused two_rows_df
                        (sample_controls Send_Notifications SMS))))
    = [Sent; Failed] /\
  map sms_to (g_sms_out (fst (run world_second_refused two_rows_df
                                (sample_controls Send_Notifications SMS))))
    = ["+966500000001"].
Proof. repeat split; vm_compute; reflexivity. Qed.

(** Without the Bonus column the first row's handler meets the unbound
    name [Mobile] and the run ends there. *)
Example scenario_bonus_column_missing :
  snd (run world_ok (mkDataFrame header_without_Bonus [row_west; row_east])
         (sample_controls Send_Notifications SMS))
    = Raise (NameError "Mobile") /\
  reports (g_ui (fst (run world_ok
                        (mkDataFrame header_without_Bonus [row_west; row_east])
                        (sample_controls Send_Notifications SMS))))
    = [].
Proof. split; vm_compute; reflexivity. Qed.

(** A file with the header and no transaction: the run stops in the
    sidebar, on any page. *)
Example scenario_header_only :
  g_ui (fst (run world_ok header_only_df (sample_controls Overview SMS))) = [] /\
  snd (run world_ok header_only_df (sample_controls Overview SMS)) <> Ok tt.
Proof. split; [reflexivity | discriminate]. Qed.

(** The sample formatter on the default template and on a template with
    another field. *)
Example scenario_format :
  sample_format "Bonus: SAR {bonus}." 500 = Ok "Bonus: SAR 500." /\
  sample_format "Dear {name}" 500 = Raise (KeyError "name") /\
  sample_format "Bonus: {}" 500 =
    Raise (IndexError "Replacement index 0 out of range for positional args tuple").
Proof. repeat split; reflexivity. Qed.
